(** * HTTPS by default: the redirect decision engine and the per-tab
      redirect tracking of [firefox/background.js]

    The background script is embedded shallowly.  JavaScript strings are
    [string]s of 8-bit characters (ASCII text), [Map]s are [gmap]s, the
    objects created by [registerRedirectInfo] live in an explicit store
    addressed by references (the listeners are closures over such an object,
    and the code compares them by identity), and every listener is a
    function from the extension's state to its state. *)

From Stdlib Require Import ZArith Ascii String List Bool Lia.
From stdpp Require Import base option list strings gmap fin_maps.

Local Open Scope string_scope.
Local Open Scope Z_scope.

(** ** JavaScript values and the operators the script applies to them *)

Module JS.

(** The values that reach [===], [-], [<] and truthiness tests. *)
Inductive value :=
| Undefined
| Null
| Num (n : Z)
| Str (s : string).

(** [a === b]. *)
Definition strict_eq (a b : value) : bool :=
  match a, b with
  | Undefined, Undefined => true
  | Null, Null => true
  | Num x, Num y => Z.eqb x y
  | Str x, Str y => String.eqb x y
  | _, _ => false
  end.

(** [ToNumber]; [None] is NaN.  Strings never reach arithmetic here. *)
Definition to_number (v : value) : option Z :=
  match v with
  | Num n => Some n
  | Null => Some 0
  | Undefined => None
  | Str _ => None
  end.

(** [a - b]: NaN as soon as one operand is NaN. *)
Definition minus (a b : value) : option Z :=
  match to_number a, to_number b with
  | Some x, Some y => Some (x - y)
  | _, _ => None
  end.

(** [n < bound] for a number [n] that may be NaN: comparisons with NaN
    are false. *)
Definition lt (n : option Z) (bound : Z) : bool :=
  match n with
  | Some x => Z.ltb x bound
  | None => false
  end.

(** [Map.prototype.get]: [undefined] for an absent key. *)
Definition map_get_num (m : gmap Z Z) (k : Z) : value :=
  match m !! k with
  | Some n => Num n
  | None => Undefined
  end.

Definition of_option_num (o : option Z) : value :=
  match o with
  | Some n => Num n
  | None => Undefined
  end.

End JS.

(** ** String methods *)

Module Str.

(** [s.startsWith(p)]. *)
Fixpoint startsWith (s p : string) : bool :=
  match p, s with
  | EmptyString, _ => true
  | String b p', String a s' => Ascii.eqb a b && startsWith s' p'
  | String _ _, EmptyString => false
  end.

(** [s.endsWith(p)]: [p] is a suffix of [s] at some position. *)
Fixpoint endsWith (s p : string) : bool :=
  String.eqb s p ||
  match s with
  | EmptyString => false
  | String _ s' => endsWith s' p
  end.

(** [s.includes(c)] for a one-character needle. *)
Fixpoint includes (s : string) (c : ascii) : bool :=
  match s with
  | EmptyString => false
  | String a s' => Ascii.eqb a c || includes s' c
  end.

(** [s.split(c)] for a one-character separator: never the empty list. *)
Fixpoint split (c : ascii) (s : string) : list string :=
  match s with
  | EmptyString => [EmptyString]
  | String a s' =>
      if Ascii.eqb a c then EmptyString :: split c s'
      else match split c s' with
           | w :: ws => String a w :: ws
           | [] => [String a EmptyString]
           end
  end.

(** [parts.join(c)]. *)
Fixpoint join (c : ascii) (parts : list string) : string :=
  match parts with
  | [] => EmptyString
  | [w] => w
  | w :: ws => w +:+ String c (join c ws)
  end.

(** The ASCII members of the regular expression class [\s]. *)
Definition is_space (a : ascii) : bool :=
  let n := nat_of_ascii a in
  (Nat.eqb n 9 || Nat.eqb n 10 || Nat.eqb n 11 || Nat.eqb n 12 ||
   Nat.eqb n 13 || Nat.eqb n 32)%bool.

(** [s.split(/\s+/)]: the text is cut at every maximal run of white space;
    [prev_ws] tells that the previous character belonged to such a run. *)
Fixpoint split_ws_from (prev_ws : bool) (s : string) : list string :=
  match s with
  | EmptyString => [EmptyString]
  | String a s' =>
      if is_space a then
        if prev_ws then split_ws_from true s'
        else EmptyString :: split_ws_from true s'
      else match split_ws_from false s' with
           | w :: ws => String a w :: ws
           | [] => [String a EmptyString]
           end
  end.

Definition split_ws (s : string) : list string := split_ws_from false s.

(** [s.replace(c, r)] with a string pattern of one character: only the
    first occurrence is replaced. *)
Fixpoint replace (c : ascii) (r : string) (s : string) : string :=
  match s with
  | EmptyString => EmptyString
  | String a s' => if Ascii.eqb a c then r +:+ s' else String a (replace c r s')
  end.

(** [\d]. *)
Definition is_digit (a : ascii) : bool :=
  let n := nat_of_ascii a in (Nat.leb 48 n && Nat.leb n 57)%bool.

Fixpoint all_digits (s : string) : bool :=
  match s with
  | EmptyString => true
  | String a s' => is_digit a && all_digits s'
  end.

(** [s] is truthy: not the empty string. *)
Definition truthy (s : string) : bool :=
  match s with
  | EmptyString => false
  | String _ _ => true
  end.

End Str.

(** ** The domain map of [prefsParsed.domains_nohttps]

    A [Map] whose string keys are domain labels, each bound to a [Map] of the
    same kind, and which may also hold the key [DOMAIN_WILDCARD_LEAF_SYMBOL].
    The symbol cannot collide with a label, so its presence is a flag. *)

#[warnings="-register-all"]
Inductive DomainMap :=
| DMap (wildcard_leaf : bool) (labels : gmap string DomainMap).

Definition has_wildcard_leaf (m : DomainMap) : bool :=
  match m with DMap b _ => b end.

Definition dm_labels (m : DomainMap) : gmap string DomainMap :=
  match m with DMap _ l => l end.

(** [map.get(part)] with a string key. *)
Definition dm_get (m : DomainMap) (part : string) : option DomainMap :=
  dm_labels m !! part.

(** [new Map()]. *)
Definition new_Map : DomainMap := DMap false ∅.

(** [map.set(DOMAIN_WILDCARD_LEAF_SYMBOL)]. *)
Definition set_wildcard_leaf (m : DomainMap) : DomainMap :=
  DMap true (dm_labels m).

(** The inner loop of [doParsePrefs] for one domain, from the map [m] on:
    every label is created when missing and descended into, and the map
    reached at the end receives the wildcard leaf.  The maps are updated in
    place in the script; no map is shared between two branches, so rebuilding
    the path is the same update. *)
Fixpoint insert_parts (parts : list string) (m : DomainMap) : DomainMap :=
  match parts with
  | [] => set_wildcard_leaf m
  | part :: rest =>
      let child := default new_Map (dm_get m part) in
      DMap (has_wildcard_leaf m) (<[part := insert_parts rest child]> (dm_labels m))
  end.

(** One turn of the outer loop of [doParsePrefs]. *)
Definition insert_domain (root : DomainMap) (domain : string) : DomainMap :=
  if Str.truthy domain
  then insert_parts (rev (Str.split "." domain)) root
  else root.

(** [doParsePrefs(domains_nohttps)]: the new value of
    [prefsParsed.domains_nohttps]. *)
Definition doParsePrefs (domains_nohttps : string) : DomainMap :=
  if Str.truthy domains_nohttps
  then fold_left insert_domain (Str.split_ws domains_nohttps) new_Map
  else new_Map.

(** The loop of [shouldRedirectToHttps] over the reversed labels of the
    hostname: [true] when the loop leaves through [return false], that is
    when a map holding the wildcard leaf is reached. *)
Fixpoint walk_parts (parts : list string) (m : DomainMap) : bool :=
  match parts with
  | [] => false
  | part :: rest =>
      match dm_get m part with
      | None => false
      | Some m' => if has_wildcard_leaf m' then true else walk_parts rest m'
      end
  end.

(** The hostname is excluded by the domain map. *)
Definition isExcluded (domains : DomainMap) (hostname : string) : bool :=
  walk_parts (rev (Str.split "." hostname)) domains.

(** ** URLs

    The fields of a [URL] object that the script reads. *)

Record URL := mkURL {
  protocol : string;
  hostname : string;
  pathname : string;
  search : string;
  hash : string;
}.

(** [new URL(s)] belongs to the browser.  The decision functions take it as
    a parameter [newURL], [None] standing for the [TypeError] it throws;
    [parse_url] below is a model of it for absolute URLs of the shape
    [scheme://userinfo@host:port/path?query#fragment], enough to run the
    script on concrete addresses.  It lowercases scheme and host, gives the
    path ["/"] to an [http:] or [https:] URL without one, and returns the
    empty string for a query or fragment that is empty; it does not
    canonicalise numeric hosts, dot segments or percent-escapes. *)
Module UrlModel.

(** The longest prefix without a character satisfying [stop], and the
    rest, which starts with that character when there is one. *)
Fixpoint break_at (stop : ascii -> bool) (s : string) : string * string :=
  match s with
  | EmptyString => (EmptyString, EmptyString)
  | String a s' =>
      if stop a then (EmptyString, s)
      else let (w, r) := break_at stop s' in (String a w, r)
  end.

Definition is_alpha (a : ascii) : bool :=
  let n := nat_of_ascii a in
  ((Nat.leb 65 n && Nat.leb n 90) || (Nat.leb 97 n && Nat.leb n 122))%bool.

Definition is_scheme_char (a : ascii) : bool :=
  (is_alpha a || Str.is_digit a ||
   Ascii.eqb a "+" || Ascii.eqb a "-" || Ascii.eqb a ".")%bool.

Fixpoint all_chars (p : ascii -> bool) (s : string) : bool :=
  match s with
  | EmptyString => true
  | String a s' => p a && all_chars p s'
  end.

Definition valid_scheme (s : string) : bool :=
  match s with
  | EmptyString => false
  | String a s' => is_alpha a && all_chars is_scheme_char s'
  end.

Definition lower_char (a : ascii) : ascii :=
  let n := nat_of_ascii a in
  if (Nat.leb 65 n && Nat.leb n 90)%bool then ascii_of_nat (n + 32) else a.

Fixpoint lower (s : string) : string :=
  match s with
  | EmptyString => EmptyString
  | String a s' => String (lower_char a) (lower s')
  end.

(** What follows the last ["@"], or the whole text. *)
Fixpoint after_userinfo (s : string) : string :=
  match s with
  | EmptyString => EmptyString
  | String a s' =>
      if Str.includes s "@" then after_userinfo s' else s
  end.

(** The host of [host:port]; a bracketed literal keeps its brackets. *)
Definition host_of (hostport : string) : string :=
  match hostport with
  | String "[" s' =>
      let (h, r) := break_at (Ascii.eqb "]") s' in
      match r with
      | EmptyString => hostport
      | String _ _ => String "[" (h +:+ "]")
      end
  | _ => fst (break_at (Ascii.eqb ":") hostport)
  end.

Definition is_special (scheme : string) : bool :=
  (String.eqb scheme "http" || String.eqb scheme "https")%bool.

(** A query or fragment reduced to its delimiter reads as the empty
    string. *)
Definition component (s : string) : string :=
  match s with
  | String _ EmptyString => EmptyString
  | _ => s
  end.

Definition parse_url (s : string) : option URL :=
  let (scheme0, rest) := break_at (Ascii.eqb ":") s in
  match rest with
  | EmptyString => None
  | String _ after =>
      if valid_scheme scheme0 then
        let scheme := lower scheme0 in
        match after with
        | String "/" (String "/" after2) =>
            let (authority, tail) :=
              break_at (fun a => Ascii.eqb a "/" || Ascii.eqb a "?" || Ascii.eqb a "#")%bool after2 in
            let host := lower (host_of (after_userinfo authority)) in
            if (is_special scheme && negb (Str.truthy host))%bool then None
            else
              let (path, tail2) :=
                break_at (fun a => Ascii.eqb a "?" || Ascii.eqb a "#")%bool tail in
              let (query, frag) := break_at (Ascii.eqb "#") tail2 in
              Some {| protocol := scheme +:+ ":";
                      hostname := host;
                      pathname := if (is_special scheme && negb (Str.truthy path))%bool
                                  then "/" else path;
                      search := component query;
                      hash := component frag |}
        | _ =>
            if is_special scheme then None
            else
              let (path, tail2) :=
                break_at (fun a => Ascii.eqb a "?" || Ascii.eqb a "#")%bool after in
              let (query, frag) := break_at (Ascii.eqb "#") tail2 in
              Some {| protocol := scheme +:+ ":";
                      hostname := EmptyString;
                      pathname := path;
                      search := component query;
                      hash := component frag |}
        end
      else None
  end.

End UrlModel.

(** ** Data delivered by the browser *)

(** A [tabs.Tab] object. *)
Record Tab := mkTab {
  tab_id : Z;
  tab_url : string;
  tab_status : string;
  tab_active : bool;
  tab_lastAccessed : option Z;
}.

(** The [details] of a [webRequest] event.  [statusCode] is present from
    [onHeadersReceived] on.  The properties are those of the WebExtension
    interface: the identifier of the request is called [requestId]. *)
Record Details := mkDetails {
  tabId : Z;
  url : string;
  requestId : string;
  originUrl : option string;
  timeStamp : Z;
  statusCode : option Z;
}.

(** [details[name]]: a property that the object does not have reads as
    [undefined]. *)
Definition get_property (details : Details) (name : string) : JS.value :=
  if String.eqb name "tabId" then JS.Num (tabId details)
  else if String.eqb name "url" then JS.Str (url details)
  else if String.eqb name "requestId" then JS.Str (requestId details)
  else if String.eqb name "originUrl" then
    match originUrl details with Some u => JS.Str u | None => JS.Undefined end
  else if String.eqb name "timeStamp" then JS.Num (timeStamp details)
  else if String.eqb name "statusCode" then JS.of_option_num (statusCode details)
  else JS.Undefined.

(** What the blocking [onBeforeRequest] listener hands back: nothing (the
    request proceeds unmodified), a redirection, or a rejected promise when
    the listener threw. *)
Inductive BlockingResponse :=
| Proceed
| RedirectUrl (redirectUrl : string)
| Threw.

(** ** The state of the background page *)

(** References to the objects made by [registerRedirectInfo]. *)
Definition ref := nat.

(** One call of [registerRedirectInfo]: the [redirectInfo] object (its [url]
    and [redirectedRequestId] properties) together with the [tabId] captured
    by its [unregister] and [onHeadersReceived] closures.  The error filter
    is built from the same [requestedUrl] as [url]. *)
Record RedirectInfo := mkRedirectInfo {
  ri_tabId : Z;
  ri_url : string;
  ri_redirectedRequestId : JS.value;
}.

Record State := mkState {
  domains_nohttps : DomainMap;
  enable_logging : bool;
  tabCreationTimes : gmap Z Z;
  tabActivatedTimes : gmap Z Z;
  tabPendingRedirectInfos : gmap Z ref;
  (** the store of [redirectInfo] objects, and the next fresh reference *)
  objects : gmap ref RedirectInfo;
  next_ref : ref;
  (** the listeners currently added to each [webRequest] event, named by
      the object whose closure they are, in the order they were added *)
  onHeadersReceived_listeners : list ref;
  onResponseStarted_listeners : list ref;
  onErrorOccurred_listeners : list ref;
}.

Definition initial_state : State :=
  {| domains_nohttps := new_Map;
     enable_logging := false;
     tabCreationTimes := ∅;
     tabActivatedTimes := ∅;
     tabPendingRedirectInfos := ∅;
     objects := ∅;
     next_ref := 0%nat;
     onHeadersReceived_listeners := [];
     onResponseStarted_listeners := [];
     onErrorOccurred_listeners := [] |}.

Definition set_domains_nohttps (v : DomainMap) (st : State) : State :=
  {| domains_nohttps := v;
     enable_logging := enable_logging st;
     tabCreationTimes := tabCreationTimes st;
     tabActivatedTimes := tabActivatedTimes st;
     tabPendingRedirectInfos := tabPendingRedirectInfos st;
     objects := objects st;
     next_ref := next_ref st;
     onHeadersReceived_listeners := onHeadersReceived_listeners st;
     onResponseStarted_listeners := onResponseStarted_listeners st;
     onErrorOccurred_listeners := onErrorOccurred_listeners st |}.

Definition set_enable_logging (v : bool) (st : State) : State :=
  {| domains_nohttps := domains_nohttps st;
     enable_logging := v;
     tabCreationTimes := tabCreationTimes st;
     tabActivatedTimes := tabActivatedTimes st;
     tabPendingRedirectInfos := tabPendingRedirectInfos st;
     objects := objects st;
     next_ref := next_ref st;
     onHeadersReceived_listeners := onHeadersReceived_listeners st;
     onResponseStarted_listeners := onResponseStarted_listeners st;
     onErrorOccurred_listeners := onErrorOccurred_listeners st |}.

Definition set_tabCreationTimes (v : gmap Z Z) (st : State) : State :=
  {| domains_nohttps := domains_nohttps st;
     enable_logging := enable_logging st;
     tabCreationTimes := v;
     tabActivatedTimes := tabActivatedTimes st;
     tabPendingRedirectInfos := tabPendingRedirectInfos st;
     objects := objects st;
     next_ref := next_ref st;
     onHeadersReceived_listeners := onHeadersReceived_listeners st;
     onResponseStarted_listeners := onResponseStarted_listeners st;
     onErrorOccurred_listeners := onErrorOccurred_listeners st |}.

Definition set_tabActivatedTimes (v : gmap Z Z) (st : State) : State :=
  {| domains_nohttps := domains_nohttps st;
     enable_logging := enable_logging st;
     tabCreationTimes := tabCreationTimes st;
     tabActivatedTimes := v;
     tabPendingRedirectInfos := tabPendingRedirectInfos st;
     objects := objects st;
     next_ref := next_ref st;
     onHeadersReceived_listeners := onHeadersReceived_listeners st;
     onResponseStarted_listeners := onResponseStarted_listeners st;
     onErrorOccurred_listeners := onErrorOccurred_listeners st |}.

Definition set_tabPendingRedirectInfos (v : gmap Z ref) (st : State) : State :=
  {| domains_nohttps := domains_nohttps st;
     enable_logging := enable_logging st;
     tabCreationTimes := tabCreationTimes st;
     tabActivatedTimes := tabActivatedTimes st;
     tabPendingRedirectInfos := v;
     objects := objects st;
     next_ref := next_ref st;
     onHeadersReceived_listeners := onHeadersReceived_listeners st;
     onResponseStarted_listeners := onResponseStarted_listeners st;
     onErrorOccurred_listeners := onErrorOccurred_listeners st |}.

Definition set_objects (v : gmap ref RedirectInfo) (n : ref) (st : State) : State :=
  {| domains_nohttps := domains_nohttps st;
     enable_logging := enable_logging st;
     tabCreationTimes := tabCreationTimes st;
     tabActivatedTimes := tabActivatedTimes st;
     tabPendingRedirectInfos := tabPendingRedirectInfos st;
     objects := v;
     next_ref := n;
     onHeadersReceived_listeners := onHeadersReceived_listeners st;
     onResponseStarted_listeners := onResponseStarted_listeners st;
     onErrorOccurred_listeners := onErrorOccurred_listeners st |}.

Definition set_listeners (h r e : list ref) (st : State) : State :=
  {| domains_nohttps := domains_nohttps st;
     enable_logging := enable_logging st;
     tabCreationTimes := tabCreationTimes st;
     tabActivatedTimes := tabActivatedTimes st;
     tabPendingRedirectInfos := tabPendingRedirectInfos st;
     objects := objects st;
     next_ref := next_ref st;
     onHeadersReceived_listeners := h;
     onResponseStarted_listeners := r;
     onErrorOccurred_listeners := e |}.

(** [event.addListener(f)]: a function that is already a listener of the
    event is not added twice. *)
Definition addListener (f : ref) (ls : list ref) : list ref :=
  if existsb (Nat.eqb f) ls then ls else ls ++ [f].

(** [event.removeListener(f)]. *)
Definition removeListener (f : ref) (ls : list ref) : list ref :=
  List.filter (fun g => negb (Nat.eqb f g)) ls.

(** ** The tracking of a pending redirect *)

(** The closure [unregister] of the object [r]: its three listeners are
    removed, and the entry of [tabPendingRedirectInfos] under the captured
    [tabId] is deleted, whichever object it holds. *)
Definition unregister (r : ref) (st : State) : State :=
  match objects st !! r with
  | None => st
  | Some info =>
      set_tabPendingRedirectInfos
        (delete (ri_tabId info) (tabPendingRedirectInfos st))
        (set_listeners
           (removeListener r (onHeadersReceived_listeners st))
           (removeListener r (onResponseStarted_listeners st))
           (removeListener r (onErrorOccurred_listeners st))
           st)
  end.

(** [statusCode !== 301 && ... && statusCode !== 308]. *)
Definition not_a_redirect_status (statusCode : JS.value) : bool :=
  (negb (JS.strict_eq statusCode (JS.Num 301)) &&
   negb (JS.strict_eq statusCode (JS.Num 302)) &&
   negb (JS.strict_eq statusCode (JS.Num 303)) &&
   negb (JS.strict_eq statusCode (JS.Num 307)) &&
   negb (JS.strict_eq statusCode (JS.Num 308)))%bool.

(** The closure [onHeadersReceived] of the object [r], called with the
    details of the event.  Its parameter is destructured as
    [{requestedId, statusCode}]. *)
Definition onHeadersReceived (r : ref) (details : Details) (st : State) : State :=
  match objects st !! r with
  | None => st
  | Some info =>
      let requestedId := get_property details "requestedId" in
      let statusCode := get_property details "statusCode" in
      if not_a_redirect_status statusCode then unregister r st
      else if negb (bool_decide (tabPendingRedirectInfos st !! ri_tabId info = Some r))
      then st
      else
        set_listeners
          (onHeadersReceived_listeners st)
          (addListener r (onResponseStarted_listeners st))
          (onErrorOccurred_listeners st)
          (set_objects
             (<[r := {| ri_tabId := ri_tabId info;
                        ri_url := ri_url info;
                        ri_redirectedRequestId := requestedId |}]> (objects st))
             (next_ref st) st)
  end.

(** [unregisterRedirectInfo(tabId)]. *)
Definition unregisterRedirectInfo (tabId : Z) (st : State) : State :=
  match tabPendingRedirectInfos st !! tabId with
  | Some r =>
      let st1 := unregister r st in
      set_tabPendingRedirectInfos (delete tabId (tabPendingRedirectInfos st1)) st1
  | None => st
  end.

(** [registerRedirectInfo(tabId, requestedUrl)]: a new object is made, the
    object pending for the tab is unregistered, the header and error
    listeners of the new object are added, and the new object becomes the
    tab's entry. *)
Definition registerRedirectInfo (tabId : Z) (requestedUrl : string) (st : State) : State :=
  let r := next_ref st in
  let st1 :=
    set_objects
      (<[r := {| ri_tabId := tabId;
                 ri_url := requestedUrl;
                 ri_redirectedRequestId := JS.Null |}]> (objects st))
      (S r) st in
  let st2 := unregisterRedirectInfo tabId st1 in
  let st3 :=
    set_listeners
      (addListener r (onHeadersReceived_listeners st2))
      (onResponseStarted_listeners st2)
      (addListener r (onErrorOccurred_listeners st2))
      st2 in
  set_tabPendingRedirectInfos (<[tabId := r]> (tabPendingRedirectInfos st3)) st3.

(** ** Delivery of the response events by the browser

    A listener receives the main-frame events of the tab given in its
    filter; an error listener moreover only those whose URL is the one in
    its filter.  The listeners that match when the event is fired are called
    in the order they were added. *)

Definition listens_to_tab (st : State) (details : Details) (r : ref) : bool :=
  match objects st !! r with
  | Some info => Z.eqb (ri_tabId info) (tabId details)
  | None => false
  end.

Definition listens_to_url (st : State) (details : Details) (r : ref) : bool :=
  match objects st !! r with
  | Some info =>
      (Z.eqb (ri_tabId info) (tabId details) && String.eqb (ri_url info) (url details))%bool
  | None => false
  end.

Definition fire_onHeadersReceived (details : Details) (st : State) : State :=
  fold_left (fun s r => onHeadersReceived r details s)
            (List.filter (listens_to_tab st details) (onHeadersReceived_listeners st)) st.

Definition fire_onResponseStarted (details : Details) (st : State) : State :=
  fold_left (fun s r => unregister r s)
            (List.filter (listens_to_tab st details) (onResponseStarted_listeners st)) st.

Definition fire_onErrorOccurred (details : Details) (st : State) : State :=
  fold_left (fun s r => unregister r s)
            (List.filter (listens_to_url st details) (onErrorOccurred_listeners st)) st.

(** ** Tab and storage listeners *)

(** [tab.id] is truthy. *)
Definition truthy_id (id : Z) : bool := negb (Z.eqb id 0).

(** [browser.tabs.onCreated], called at time [now]. *)
Definition tabs_onCreated (tab : Tab) (now : Z) (st : State) : State :=
  if truthy_id (tab_id tab) then
    let st1 := set_tabCreationTimes (<[tab_id tab := now]> (tabCreationTimes st)) st in
    if tab_active tab
    then set_tabActivatedTimes (<[tab_id tab := now]> (tabActivatedTimes st1)) st1
    else st1
  else st.

(** [browser.tabs.onActivated]. *)
Definition tabs_onActivated (tabId : Z) (now : Z) (st : State) : State :=
  set_tabActivatedTimes (<[tabId := now]> (tabActivatedTimes st)) st.

(** [browser.tabs.onRemoved]. *)
Definition tabs_onRemoved (tabId : Z) (st : State) : State :=
  let st1 := set_tabCreationTimes (delete tabId (tabCreationTimes st)) st in
  let st2 := set_tabActivatedTimes (delete tabId (tabActivatedTimes st1)) st1 in
  unregisterRedirectInfo tabId st2.

(** [tab.lastAccessed || Date.now()]. *)
Definition lastAccessed_or (tab : Tab) (now : Z) : Z :=
  match tab_lastAccessed tab with
  | Some t => if Z.eqb t 0 then now else t
  | None => now
  end.

(** The body of the loop over the result of [browser.tabs.query({})]. *)
Definition tabs_query_one (now : Z) (st : State) (tab : Tab) : State :=
  let st1 :=
    set_tabCreationTimes
      (<[tab_id tab := lastAccessed_or tab now]> (tabCreationTimes st)) st in
  set_tabActivatedTimes
    (<[tab_id tab := if tab_active tab then now else 0]> (tabActivatedTimes st1)) st1.

Definition tabs_query_then (tabs : list Tab) (now : Z) (st : State) : State :=
  fold_left (tabs_query_one now) tabs st.

(** [browser.storage.onChanged]: the new values of the keys that changed. *)
Definition storage_onChanged (new_domains_nohttps : option string)
    (new_enable_logging : option bool) (st : State) : State :=
  let st1 :=
    match new_domains_nohttps with
    | Some text => set_domains_nohttps (doParsePrefs text) st
    | None => st
    end in
  match new_enable_logging with
  | Some b => set_enable_logging b st1
  | None => st1
  end.

(** ** The redirect decision *)

(** The regular expression [/^\d{1,3}\.\d{1,3}\.\d{1,3}\.\d{1,3}$/]: four
    groups of one to three digits separated by dots. *)
Definition digit_group (g : string) : bool :=
  (Str.all_digits g && Nat.leb 1 (String.length g) && Nat.leb (String.length g) 3)%bool.

Definition is_ipv4_literal (hostname : string) : bool :=
  match Str.split "." hostname with
  | [a; b; c; d] => (digit_group a && digit_group b && digit_group c && digit_group d)%bool
  | _ => false
  end.

(** [s.length > n]. *)
Definition longer_than (s : string) (n : nat) : bool := Nat.ltb n (String.length s).

Section Decision.

(** [new URL(s)]; [None] when it throws. *)
Variable newURL : string -> option URL.

(** [shouldRedirectToHttps(requestedUrl)], reading the domain map
    [domains]; [None] when [new URL(requestedUrl)] throws. *)
Definition shouldRedirectToHttps (domains : DomainMap) (requestedUrl : string)
  : option bool :=
  match newURL requestedUrl with
  | None => None
  | Some u =>
      let hostname := hostname u in
      Some
        (if negb (Str.includes hostname ".") then false
         else if (Str.endsWith hostname ".test" ||
                  Str.endsWith hostname ".example" ||
                  Str.endsWith hostname ".invalid" ||
                  Str.endsWith hostname ".localhost")%bool then false
         else if (is_ipv4_literal hostname ||
                  Str.startsWith hostname "[" && Str.endsWith hostname "]")%bool then false
         else if isExcluded domains hostname then false
         else true)
  end.

(** The last test of [isDerivedURL], on the two parsed URLs. *)
Definition same_nonempty_tail (cur req : URL) : bool :=
  ((longer_than (pathname req) 1 ||
    longer_than (search req) 2 ||
    longer_than (hash req) 2) &&
   String.eqb (pathname req) (pathname cur) &&
   String.eqb (search req) (search cur) &&
   String.eqb (hash req) (hash cur))%bool.

(** [isDerivedURL(currentUrl, requestedUrl)]; the failure to parse
    [currentUrl] is caught, [None] is the exception of
    [new URL(requestedUrl)]. *)
Definition isDerivedURL (currentUrl requestedUrl : string) : option bool :=
  if String.eqb currentUrl requestedUrl then Some true
  else if negb (Str.startsWith currentUrl "http") then Some false
  else
    match newURL currentUrl with
    | None => Some false
    | Some cur =>
        match newURL requestedUrl with
        | None => None
        | Some req =>
            if String.eqb (hostname req) (hostname cur) then Some true
            else if String.eqb (protocol cur) "https:" then Some false
            else if same_nonempty_tail cur req then Some true
            else Some false
        end
    end.

(** The block guarded by [currentTab.url === 'about:blank']: [true] when
    one of its three [return]s is taken. *)
Definition placeholder_veto (details : Details) (currentTab : Tab) (st : State) : bool :=
  let tabId := tabId details in
  if String.eqb (tab_url currentTab) "about:blank" then
    match tabCreationTimes st !! tabId with
    | None => true
    | Some tabCreationTime =>
        let tabActivatedTime := JS.map_get_num (tabActivatedTimes st) tabId in
        let tabActivatedTime :=
          if JS.strict_eq (JS.Num tabId) JS.Undefined
          then JS.of_option_num (tab_lastAccessed currentTab)
          else tabActivatedTime in
        if JS.lt (JS.minus (JS.Num (timeStamp details)) tabActivatedTime) 1000 then true
        else if JS.lt (JS.minus (JS.Num (timeStamp details))
                                (JS.map_get_num (tabCreationTimes st) tabId)) 300 then true
        else false
    end
  else false.

(** [pendingRedirectInfo && pendingRedirectInfo.redirectedRequestId ===
    requestedId]. *)
Definition is_retried_request (st : State) (tabId : Z) (requestedId : JS.value) : bool :=
  match tabPendingRedirectInfos st !! tabId with
  | Some r =>
      match objects st !! r with
      | Some info => JS.strict_eq (ri_redirectedRequestId info) requestedId
      | None => false
      end
  | None => false
  end.

(** [pendingRedirectInfo && pendingRedirectInfo.url === requestedUrl &&
    currentTab && currentTab.status === 'loading']. *)
Definition is_repeated_while_loading (st : State) (tabId : Z) (requestedUrl : string)
    (currentTab : option Tab) : bool :=
  match tabPendingRedirectInfos st !! tabId with
  | Some r =>
      match objects st !! r, currentTab with
      | Some info, Some tab =>
          (String.eqb (ri_url info) requestedUrl && String.eqb (tab_status tab) "loading")%bool
      | _, _ => false
      end
  | None => false
  end.

(** The listener from the end of the polling loop on; [currentTab] is what
    the loop left, [None] when [browser.tabs.get] never succeeded.  No
    other listener runs between these statements.  The logging does not
    touch the state. *)
Definition decide_for_tab (details : Details) (currentTab : option Tab) (st : State)
  : BlockingResponse * State :=
  let tabId := tabId details in
  let requestedUrl := url details in
  let requestedId := get_property details "requestedId" in
  if match currentTab with
     | Some tab => placeholder_veto details tab st
     | None => false
     end
  then (Proceed, st)
  else
    match match currentTab with
          | Some tab => isDerivedURL (tab_url tab) requestedUrl
          | None => Some false
          end with
    | None => (Threw, st)
    | Some true => (Proceed, st)
    | Some false =>
        let httpsUrl := Str.replace ":" "s:" requestedUrl in
        if bool_decide (is_Some (tabCreationTimes st !! tabId)) then
          if is_retried_request st tabId requestedId then (Proceed, st)
          else if is_repeated_while_loading st tabId requestedUrl currentTab
          then (Proceed, st)
          else (RedirectUrl httpsUrl, registerRedirectInfo tabId requestedUrl st)
        else (RedirectUrl httpsUrl, st)
    end.

(** The [browser.webRequest.onBeforeRequest] listener.  The preferences
    are ready; the outcome of the polling loop is the input [currentTab]. *)
Definition onBeforeRequest (details : Details) (currentTab : option Tab) (st : State)
  : BlockingResponse * State :=
  if match originUrl details with Some u => Str.truthy u | None => false end
  then (Proceed, st)
  else if Z.eqb (tabId details) (-1) then (Proceed, st)
  else
    match shouldRedirectToHttps (domains_nohttps st) (url details) with
    | None => (Threw, st)
    | Some false => (Proceed, st)
    | Some true => decide_for_tab details currentTab st
    end.

(** ** Runs of the background page *)

Inductive Event :=
| TabCreated (tab : Tab) (now : Z)
| TabActivated (tabId : Z) (now : Z)
| TabRemoved (tabId : Z)
| TabsQueried (tabs : list Tab) (now : Z)
| StorageChanged (new_domains_nohttps : option string) (new_enable_logging : option bool)
| BeforeRequest (details : Details) (currentTab : option Tab)
(** the second half of the request listener, resumed after other events *)
| BeforeRequestResumed (details : Details) (currentTab : option Tab)
| HeadersReceived (details : Details)
| ResponseStarted (details : Details)
| ErrorOccurred (details : Details)
(** an event that was queued for the listeners of the object [r] and is
    dispatched whether or not they are still added *)
| QueuedHeadersReceived (r : ref) (details : Details)
| QueuedUnregister (r : ref).

Definition handle (e : Event) (st : State) : State :=
  match e with
  | TabCreated tab now => tabs_onCreated tab now st
  | TabActivated tabId now => tabs_onActivated tabId now st
  | TabRemoved tabId => tabs_onRemoved tabId st
  | TabsQueried tabs now => tabs_query_then tabs now st
  | StorageChanged d l => storage_onChanged d l st
  | BeforeRequest details currentTab => snd (onBeforeRequest details currentTab st)
  | BeforeRequestResumed details currentTab => snd (decide_for_tab details currentTab st)
  | HeadersReceived details => fire_onHeadersReceived details st
  | ResponseStarted details => fire_onResponseStarted details st
  | ErrorOccurred details => fire_onErrorOccurred details st
  | QueuedHeadersReceived r details => onHeadersReceived r details st
  | QueuedUnregister r => unregister r st
  end.

Definition run (events : list Event) (st : State) : State :=
  fold_left (fun s e => handle e s) events st.

Inductive reachable : State -> Prop :=
| reachable_initial : reachable initial_state
| reachable_step e st : reachable st -> reachable (handle e st).

End Decision.

(** ** Vocabulary of the statements *)

(** The domain patterns of a preference text: its non-empty pieces between
    runs of white space, as [doParsePrefs] enumerates them. *)
Definition patterns (text : string) : list string :=
  List.filter Str.truthy (Str.split_ws text).

(** No character of [s] is white space. *)
Fixpoint blank_free (s : string) : bool :=
  match s with
  | EmptyString => true
  | String a s' => negb (Str.is_space a) && blank_free s'
  end.

(** [s] is empty or starts with white space. *)
Definition starts_blank (s : string) : bool :=
  match s with
  | EmptyString => true
  | String a _ => Str.is_space a
  end.

(** [s] is empty or ends with white space. *)
Fixpoint ends_blank (s : string) : bool :=
  match s with
  | EmptyString => true
  | String a s' =>
      match s' with
      | EmptyString => Str.is_space a
      | String _ _ => ends_blank s'
      end
  end.

(** [pattern] is a whitespace-separated piece of [text]: a non-empty run
    without white space that is bounded on each side by white space or by
    the end of the text. *)
Definition is_pattern_of (text pattern : string) : Prop :=
  pattern <> EmptyString /\
  blank_free pattern = true /\
  exists pre post,
    text = pre +:+ pattern +:+ post /\
    ends_blank pre = true /\
    starts_blank post = true.

(** [pattern] covers [hostname]: it is the hostname itself or a suffix of it
    that starts right after a dot. *)
Definition covers (pattern hostname : string) : Prop :=
  hostname = pattern \/ exists x, hostname = x +:+ String "." pattern.

(** The object pending for a tab, when there is one. *)
Definition pending_info (st : State) (tabId : Z) : option RedirectInfo :=
  match tabPendingRedirectInfos st !! tabId with
  | Some r => objects st !! r
  | None => None
  end.

(** The object [r] has no listener left on any event. *)
Definition detached (st : State) (r : ref) : Prop :=
  ~ In r (onHeadersReceived_listeners st) /\
  ~ In r (onResponseStarted_listeners st) /\
  ~ In r (onErrorOccurred_listeners st).

(** Every tab with a pending redirect has a recorded creation time. *)
Definition pending_tabs_are_known (st : State) : Prop :=
  forall tabId, is_Some (tabPendingRedirectInfos st !! tabId) ->
                is_Some (tabCreationTimes st !! tabId).

(** [st'] comes from [st] by removing listeners and entries of the
    registry: nothing is added, and the objects and the ledger are kept. *)
Record shrinks (st st' : State) : Prop := {
  shrinks_creation : tabCreationTimes st' = tabCreationTimes st;
  shrinks_objects : objects st' = objects st;
  shrinks_next_ref : next_ref st' = next_ref st;
  shrinks_pending : forall t r,
    tabPendingRedirectInfos st' !! t = Some r -> tabPendingRedirectInfos st !! t = Some r;
  shrinks_headers : forall r,
    In r (onHeadersReceived_listeners st') -> In r (onHeadersReceived_listeners st);
  shrinks_started : forall r,
    In r (onResponseStarted_listeners st') -> In r (onResponseStarted_listeners st);
  shrinks_errors : forall r,
    In r (onErrorOccurred_listeners st') -> In r (onErrorOccurred_listeners st);
}.

(** Every character of [s] is white space. *)
Fixpoint only_blanks (s : string) : bool :=
  match s with
  | EmptyString => true
  | String a s' => Str.is_space a && only_blanks s'
  end.

(** The registry, the store and the listeners agree: an entry of the
    registry holds an object that was made for that tab and whose header and
    error listeners are added; listeners belong to objects of the store; and
    the references of the store are below the next fresh one. *)
Record tracking_wf (st : State) : Prop := {
  wf_entry : forall t r,
    tabPendingRedirectInfos st !! t = Some r ->
    exists info, objects st !! r = Some info /\ ri_tabId info = t;
  wf_entry_listens : forall t r,
    tabPendingRedirectInfos st !! t = Some r ->
    In r (onHeadersReceived_listeners st) /\ In r (onErrorOccurred_listeners st);
  wf_fresh : forall r, is_Some (objects st !! r) -> (r < next_ref st)%nat;
  wf_headers : forall r,
    In r (onHeadersReceived_listeners st) -> is_Some (objects st !! r);
  wf_started : forall r,
    In r (onResponseStarted_listeners st) -> is_Some (objects st !! r);
  wf_errors : forall r,
    In r (onErrorOccurred_listeners st) -> is_Some (objects st !! r);
}.

(** Every listener belongs to the object that is the entry of its tab: no
    listener is left behind by an upgrade that is no longer pending. *)
Definition no_listener_leak (st : State) : Prop :=
  forall r,
    In r (onHeadersReceived_listeners st) \/
    In r (onResponseStarted_listeners st) \/
    In r (onErrorOccurred_listeners st) ->
    exists info,
      objects st !! r = Some info /\
      tabPendingRedirectInfos st !! ri_tabId info = Some r.

(** The events that the browser delivers to the listeners that are added
    when it fires them; the two others stand for late deliveries. *)
Definition delivered_in_order (e : Event) : bool :=
  match e with
  | QueuedHeadersReceived _ _ => false
  | QueuedUnregister _ => false
  | _ => true
  end.

(** The object [r] is the entry of its tab, or its tab has no entry. *)
Definition current_or_settled (st : State) (r : ref) : Prop :=
  forall info, objects st !! r = Some info ->
    tabPendingRedirectInfos st !! ri_tabId info = Some r \/
    tabPendingRedirectInfos st !! ri_tabId info = None.

(** The readings of the documentation that are compared with the script. *)
Module Contract.

(** The placeholder heuristic as documented: when no activation time was
    recorded for the tab, the tab's last-accessed time stands for it. *)
Definition placeholder_veto (details : Details) (currentTab : Tab) (st : State) : bool :=
  let tabId := tabId details in
  if String.eqb (tab_url currentTab) "about:blank" then
    match tabCreationTimes st !! tabId with
    | None => true
    | Some tabCreationTime =>
        let tabActivatedTime := JS.map_get_num (tabActivatedTimes st) tabId in
        let tabActivatedTime :=
          if JS.strict_eq tabActivatedTime JS.Undefined
          then JS.of_option_num (tab_lastAccessed currentTab)
          else tabActivatedTime in
        if JS.lt (JS.minus (JS.Num (timeStamp details)) tabActivatedTime) 1000 then true
        else if JS.lt (JS.minus (JS.Num (timeStamp details)) (JS.Num tabCreationTime)) 300
        then true
        else false
    end
  else false.

(** The last stage of the derived-URL heuristic read as a conjunction:
    path, query and fragment are each more than their delimiter, and all
    three are the same on both sides. *)
Definition each_nontrivial_and_equal (cur req : URL) : bool :=
  (longer_than (pathname req) 1 &&
   longer_than (search req) 2 &&
   longer_than (hash req) 2 &&
   String.eqb (pathname req) (pathname cur) &&
   String.eqb (search req) (search cur) &&
   String.eqb (hash req) (hash cur))%bool.

End Contract.

(** ** Scenarios *)

Module Scenario.

(** A tab opened in the foreground on the placeholder page. *)
Definition blank_tab (id : Z) : Tab :=
  {| tab_id := id; tab_url := "about:blank"; tab_status := "complete";
     tab_active := true; tab_lastAccessed := None |}.

(** A tab opened in the background: created, never activated. *)
Definition background_tab (id : Z) (lastAccessed : Z) : Tab :=
  {| tab_id := id; tab_url := "about:blank"; tab_status := "complete";
     tab_active := false; tab_lastAccessed := Some lastAccessed |}.

(** A tab showing the page [u]. *)
Definition tab_showing (id : Z) (u : string) : Tab :=
  {| tab_id := id; tab_url := u; tab_status := "complete";
     tab_active := true; tab_lastAccessed := None |}.

(** A navigation typed in the address bar: no origin URL. *)
Definition typed (tab : Z) (u : string) (id : string) (time : Z) : Details :=
  {| tabId := tab; url := u; requestId := id; originUrl := None;
     timeStamp := time; statusCode := None |}.

(** A response event of the request [id] on the tab. *)
Definition response (tab : Z) (u : string) (id : string) (status : Z) (time : Z)
  : Details :=
  {| tabId := tab; url := u; requestId := id; originUrl := None;
     timeStamp := time; statusCode := Some status |}.


Definition T0 : Z := 1500000000000.

(** The ledger after a tab was created and activated at [T0]. *)
Definition fresh_tab_state : State :=
  tabs_onCreated (blank_tab 1) T0 initial_state.

(** An upgrade of [http://example.com/] was approved on tab 1, five
    seconds after the tab was opened. *)
Definition armed_state : State :=
  snd (onBeforeRequest UrlModel.parse_url
         (typed 1 "http://example.com/" "100" (T0 + 5000))
         (Some (blank_tab 1)) fresh_tab_state).

(** The server then answered the upgraded request [100] with a 302. *)
Definition redirected_state : State :=
  fire_onHeadersReceived (response 1 "https://example.com/" "100" 302 (T0 + 5100))
                         armed_state.

(** While the first upgrade was pending, a second address was typed in
    the same tab and upgraded as well. *)
Definition superseded_state : State :=
  snd (onBeforeRequest UrlModel.parse_url
         (typed 1 "http://example.org/" "101" (T0 + 6000))
         (Some (tab_showing 1 "about:home")) armed_state).

(** A tab opened in the background at [T0] and last accessed then. *)
Definition background_state : State :=
  tabs_onCreated (background_tab 2 T0) T0 initial_state.

End Scenario.

(** * Properties *)

Local Open Scope list_scope.

(** ** Strings *)

Lemma append_nil_l (s : string) : EmptyString +:+ s = s.
Proof. reflexivity. Qed.

Lemma append_cons (a : ascii) (x y : string) : String a x +:+ y = String a (x +:+ y).
Proof. reflexivity. Qed.

Section SplitJoin.

Variable c : ascii.

Lemma split_not_nil s : Str.split c s <> [].
Proof.
  destruct s as [|a s]; simpl; [discriminate|].
  destruct (Ascii.eqb a c); [discriminate|].
  destruct (Str.split c s); discriminate.
Qed.

Lemma join_cons_char a w ws :
  Str.join c (String a w :: ws) = String a (Str.join c (w :: ws)).
Proof. destruct ws; reflexivity. Qed.

Lemma join_cons w ws :
  ws <> [] -> Str.join c (w :: ws) = w +:+ String c (Str.join c ws).
Proof. destruct ws; [congruence | reflexivity]. Qed.

Lemma join_split s : Str.join c (Str.split c s) = s.
Proof.
  induction s as [|a s IH]; simpl; [reflexivity|].
  destruct (Ascii.eqb a c) eqn:E.
  - apply Ascii.eqb_eq in E. subst a.
    rewrite join_cons by apply split_not_nil. now rewrite append_nil_l, IH.
  - destruct (Str.split c s) as [|w ws] eqn:S.
    + now apply split_not_nil in S.
    + rewrite join_cons_char. now rewrite IH.
Qed.

Lemma split_app x y :
  Str.split c (x +:+ String c y) = Str.split c x ++ Str.split c y.
Proof.
  induction x as [|a x IH]; [rewrite append_nil_l | rewrite append_cons]; simpl.
  - now rewrite Ascii.eqb_refl.
  - destruct (Ascii.eqb a c); rewrite IH; [reflexivity|].
    destruct (Str.split c x) as [|w ws] eqn:S; [now apply split_not_nil in S|].
    reflexivity.
Qed.

Lemma append_assoc (x y z : string) : (x +:+ y) +:+ z = x +:+ (y +:+ z).
Proof.
  induction x as [|a x IH]; [reflexivity|].
  rewrite !append_cons. now rewrite IH.
Qed.

Lemma join_app k l :
  k <> [] -> l <> [] ->
  Str.join c (k ++ l) = Str.join c k +:+ String c (Str.join c l).
Proof.
  intros Hk Hl. induction k as [|w k IH]; [congruence|].
  destruct k as [|w' k].
  - simpl app. now rewrite join_cons.
  - change ((w :: w' :: k) ++ l) with (w :: ((w' :: k) ++ l)).
    rewrite join_cons by discriminate.
    rewrite IH by discriminate.
    rewrite (join_cons w (w' :: k)) by discriminate.
    rewrite append_assoc. reflexivity.
Qed.

(** The pieces of [p] end the pieces of [h] exactly when [p] is [h] or
    follows a separator in it. *)
Lemma split_suffix p h :
  (exists k, Str.split c h = k ++ Str.split c p) <->
  (h = p \/ exists x, h = x +:+ String c p).
Proof.
  split.
  - intros [k Hk]. destruct k as [|w k].
    + left. rewrite <- (join_split h), <- (join_split p). now rewrite Hk.
    + right. exists (Str.join c (w :: k)).
      rewrite <- (join_split h) at 1. rewrite Hk.
      rewrite join_app; [|discriminate|apply split_not_nil].
      now rewrite join_split.
  - intros [->|[x ->]].
    + now exists [].
    + exists (Str.split c x). apply split_app.
Qed.

End SplitJoin.

Lemma rev_prefix_suffix {A} (p h : list A) :
  (exists k, rev h = rev p ++ k) <-> (exists k, h = k ++ p).
Proof.
  split; intros [k Hk].
  - exists (rev k). rewrite <- (rev_involutive h), Hk, rev_app_distr.
    now rewrite rev_involutive.
  - exists (rev k). subst h. now rewrite rev_app_distr.
Qed.

(** ** The pieces of [split(/\s+/)] *)

Lemma split_ws_from_not_nil b s : Str.split_ws_from b s <> [].
Proof.
  revert b. induction s as [|a s IH]; intros b; simpl; [discriminate|].
  destruct (Str.is_space a).
  - destruct b; [apply IH | discriminate].
  - destruct (Str.split_ws_from false s); discriminate.
Qed.

Lemma split_ws_from_nonspace b a s :
  Str.is_space a = false ->
  Str.split_ws_from b (String a s) =
  String a (hd EmptyString (Str.split_ws_from false s)) :: tl (Str.split_ws_from false s).
Proof.
  intros H. simpl. rewrite H.
  destruct (Str.split_ws_from false s) eqn:E; [|reflexivity].
  now apply split_ws_from_not_nil in E.
Qed.

Lemma split_ws_from_space b a s :
  Str.is_space a = true ->
  List.filter Str.truthy (Str.split_ws_from b (String a s)) =
  List.filter Str.truthy (Str.split_ws_from true s).
Proof. intros H. simpl. rewrite H. now destruct b. Qed.

Lemma ends_blank_cons a s :
  ends_blank (String a s) =
  match s with EmptyString => Str.is_space a | String _ _ => ends_blank s end.
Proof. reflexivity. Qed.

(** The first piece is the run of characters before the first white space. *)
Lemma split_ws_head s :
  exists post,
    s = hd EmptyString (Str.split_ws_from false s) +:+ post /\
    blank_free (hd EmptyString (Str.split_ws_from false s)) = true /\
    starts_blank post = true.
Proof.
  induction s as [|a s (post & Hs & Hb & Hp)].
  - exists EmptyString. now repeat split.
  - destruct (Str.is_space a) eqn:E.
    + exists (String a s). simpl. rewrite E. now repeat split.
    + rewrite (split_ws_from_nonspace false a s E). cbn [hd].
      exists post. rewrite append_cons, <- Hs. cbn [blank_free].
      now rewrite E, Hb.
Qed.

Lemma split_ws_head_run p post :
  blank_free p = true -> starts_blank post = true ->
  hd EmptyString (Str.split_ws_from false (p +:+ post)) = p.
Proof.
  intros Hb Hp. induction p as [|a p IH].
  - rewrite append_nil_l. destruct post as [|c post]; [reflexivity|].
    simpl in Hp |- *. now rewrite Hp.
  - cbn [blank_free] in Hb. apply andb_true_iff in Hb as [Ha Hb].
    apply negb_true_iff in Ha.
    rewrite append_cons, (split_ws_from_nonspace false a _ Ha). cbn [hd].
    now rewrite IH.
Qed.

Lemma is_pattern_of_nonspace_head pattern :
  pattern <> EmptyString -> blank_free pattern = true ->
  exists a p, pattern = String a p /\ Str.is_space a = false /\ blank_free p = true.
Proof.
  intros Hne Hb. destruct pattern as [|a p]; [congruence|].
  cbn [blank_free] in Hb. apply andb_true_iff in Hb as [Ha Hb].
  apply negb_true_iff in Ha. eauto.
Qed.

(** Every piece that the split delivers stands in the text as a pattern;
    the pieces after the first one start after some white space. *)
Lemma split_ws_sound s : forall b pattern,
  (In pattern (List.filter Str.truthy (Str.split_ws_from b s)) ->
   is_pattern_of s pattern) /\
  (starts_blank s = false ->
   In pattern (List.filter Str.truthy (tl (Str.split_ws_from b s))) ->
   pattern <> EmptyString /\ blank_free pattern = true /\
   exists pre post,
     pre <> EmptyString /\ s = pre +:+ pattern +:+ post /\
     ends_blank pre = true /\ starts_blank post = true).
Proof.
  induction s as [|a s IH]; intros b pattern.
  - split; [intros []|discriminate].
  - destruct (Str.is_space a) eqn:E.
    + split; [|cbn [starts_blank]; congruence].
      rewrite (split_ws_from_space b a s E). intros Hin.
      apply (IH true pattern) in Hin as (Hne & Hb & pre & post & -> & Hpre & Hpost).
      repeat split; try assumption.
      exists (String a pre), post. repeat split; try assumption.
      rewrite ends_blank_cons. now destruct pre.
    + rewrite (split_ws_from_nonspace b a s E). cbn [tl].
      assert (In pattern (List.filter Str.truthy (tl (Str.split_ws_from false s))) ->
              pattern <> EmptyString /\ blank_free pattern = true /\
              exists pre post,
                pre <> EmptyString /\ String a s = pre +:+ pattern +:+ post /\
                ends_blank pre = true /\ starts_blank post = true) as Htail.
      { intros Hin. destruct (starts_blank s) eqn:Hs.
        - destruct s as [|c s']; [destruct Hin|]. cbn [starts_blank] in Hs.
          assert (In pattern (List.filter Str.truthy (Str.split_ws_from false (String c s'))))
            as Hin'.
          { simpl in Hin |- *. now rewrite Hs in *. }
          apply (IH false pattern) in Hin' as (Hne & Hb & pre & post & Heq & Hpre & Hpost).
          repeat split; try assumption.
          destruct (is_pattern_of_nonspace_head _ Hne Hb) as (x & p & -> & Hx & _).
          destruct pre as [|d pre].
          { rewrite append_nil_l, append_cons in Heq. injection Heq as -> _. congruence. }
          exists (String a (String d pre)), post. repeat split; try assumption.
          * discriminate.
          * now rewrite append_cons, <- Heq.
        - destruct (proj2 (IH false pattern) eq_refl Hin)
            as (Hne & Hb & pre & post & Hpne & -> & Hpre & Hpost).
          repeat split; try assumption.
          exists (String a pre), post. repeat split; try assumption.
          + discriminate.
          + rewrite ends_blank_cons. now destruct pre. }
      split; [|intros _; exact Htail].
      cbn [List.filter Str.truthy]. intros [<-|Hin].
      * destruct (split_ws_head s) as (post & Hs & Hb & Hp).
        repeat split; [discriminate|cbn [blank_free]; now rewrite E, Hb|].
        exists EmptyString, post. rewrite append_nil_l, append_cons, <- Hs.
        now repeat split.
      * destruct (Htail Hin) as (Hne & Hb & pre & post & _ & Heq & Hpre & Hpost).
        repeat split; try assumption. eauto.
Qed.

(** Every pattern that stands in the text is delivered by the split. *)
Lemma split_ws_complete s : forall b pre pattern post,
  pattern <> EmptyString -> blank_free pattern = true ->
  s = pre +:+ pattern +:+ post ->
  ends_blank pre = true -> starts_blank post = true ->
  In pattern (List.filter Str.truthy (Str.split_ws_from b s)) /\
  (pre <> EmptyString -> starts_blank s = false ->
   In pattern (List.filter Str.truthy (tl (Str.split_ws_from b s)))).
Proof.
  induction s as [|a s IH]; intros b pre pattern post Hne Hb Heq Hpre Hpost.
  - destruct pre, pattern; try discriminate. congruence.
  - destruct (is_pattern_of_nonspace_head _ Hne Hb) as (x & p & -> & Hx & Hp).
    destruct pre as [|c pre].
    + rewrite append_nil_l, append_cons in Heq. injection Heq as -> ->.
      rewrite (split_ws_from_nonspace b x _ Hx).
      rewrite (split_ws_head_run p post Hp Hpost).
      split; [now left | congruence].
    + rewrite append_cons in Heq. injection Heq as -> ->.
      destruct (Str.is_space c) eqn:E.
      * split; [|cbn [starts_blank]; congruence].
        rewrite (split_ws_from_space b c _ E).
        apply (IH true pre (String x p) post); try assumption; try reflexivity.
        rewrite ends_blank_cons in Hpre. now destruct pre.
      * rewrite ends_blank_cons in Hpre.
        destruct pre as [|d pre]; [congruence|].
        rewrite (split_ws_from_nonspace b c _ E). cbn [tl].
        assert (In (String x p)
                  (List.filter Str.truthy
                     (tl (Str.split_ws_from false (String d pre +:+ String x p +:+ post)))))
          as Hin.
        { destruct (IH false (String d pre) (String x p) post Hne Hb eq_refl Hpre Hpost)
            as [H1 H2].
          destruct (Str.is_space d) eqn:Ed.
          - rewrite append_cons in H1 |- *. simpl in H1 |- *. now rewrite Ed in *.
          - apply H2; [discriminate|]. rewrite append_cons. exact Ed. }
        split; [|intros _ _; exact Hin].
        cbn [List.filter Str.truthy]. now right.
Qed.

(** The patterns that [doParsePrefs] inserts are the whitespace-separated
    pieces of the text. *)
Lemma In_patterns_iff text pattern :
  In pattern (patterns text) <-> is_pattern_of text pattern.
Proof.
  unfold patterns, Str.split_ws. split.
  - apply split_ws_sound.
  - intros (Hne & Hb & pre & post & Heq & Hpre & Hpost).
    now apply (split_ws_complete text false pre pattern post).
Qed.

(** ** The domain map *)

Lemma walk_parts_new_Map parts : walk_parts parts new_Map = false.
Proof. destruct parts; reflexivity. Qed.

Lemma insert_parts_leaf parts m :
  parts <> [] -> has_wildcard_leaf (insert_parts parts m) = has_wildcard_leaf m.
Proof. destruct parts; [congruence | reflexivity]. Qed.

(** After one more domain has been inserted, the walk stops on a wildcard
    leaf when it did before, or when it follows the inserted labels. *)
Lemma walk_insert_parts ps : forall hs m,
  ps <> [] ->
  walk_parts hs (insert_parts ps m) = true <->
  walk_parts hs m = true \/ exists k, hs = ps ++ k.
Proof.
  induction ps as [|p rest IH]; intros hs m Hne; [congruence|].
  destruct hs as [|h hs].
  - simpl. split; [discriminate|]. intros [?|[k ?]]; discriminate.
  - cbn [insert_parts walk_parts]. unfold dm_get at 1. cbn [dm_labels].
    destruct (decide (p = h)) as [->|Hph].
    + rewrite lookup_insert_eq.
      destruct rest as [|q rest].
      * cbn. split; [|reflexivity]. intros _. right. now exists hs.
      * rewrite insert_parts_leaf by discriminate.
        unfold dm_get. destruct (dm_labels m !! h) as [child|] eqn:Hc; cbn [default from_option id].
        -- destruct (has_wildcard_leaf child); [tauto|].
           rewrite IH by discriminate.
           split; (intros [?|[k Hk]]; [now left|right]).
           ++ exists k. now rewrite Hk.
           ++ exists k. now inversion Hk.
        -- cbn [has_wildcard_leaf new_Map]. rewrite IH by discriminate.
           rewrite walk_parts_new_Map.
           split; (intros [?|[k Hk]]; [discriminate|right]).
           ++ exists k. now rewrite Hk.
           ++ exists k. now inversion Hk.
    + rewrite lookup_insert_ne by assumption. fold (dm_get m h).
      split; [now left|]. intros [?|[k Hk]]; [assumption|].
      inversion Hk. congruence.
Qed.

Lemma walk_insert_domain hs root domain :
  walk_parts hs (insert_domain root domain) = true <->
  walk_parts hs root = true \/
  (Str.truthy domain = true /\ exists k, hs = rev (Str.split "." domain) ++ k).
Proof.
  unfold insert_domain. destruct (Str.truthy domain).
  - rewrite walk_insert_parts.
    + split; (intros [?|?]; [now left|right]); tauto.
    + intros H. apply (f_equal (@rev string)) in H.
      rewrite rev_involutive in H. now apply split_not_nil in H.
  - split; [now left|]. intros [?|[? _]]; [assumption|discriminate].
Qed.

Lemma walk_fold_insert_domain hs domains : forall root,
  walk_parts hs (fold_left insert_domain domains root) = true <->
  walk_parts hs root = true \/
  exists domain, In domain domains /\ Str.truthy domain = true /\
                 exists k, hs = rev (Str.split "." domain) ++ k.
Proof.
  induction domains as [|d ds IH]; intros root; simpl.
  - split; [now left|]. intros [?|(? & [] & _)]. assumption.
  - rewrite IH, walk_insert_domain. split.
    + intros [[?|[Ht Hk]]|(d' & Hin & Ht & Hk)].
      * now left.
      * right. exists d. auto.
      * right. exists d'. auto.
    + intros [?|(d' & [->|Hin] & Ht & Hk)].
      * left. now left.
      * left. now right.
      * right. exists d'. auto.
Qed.

Lemma doParsePrefs_fold text :
  doParsePrefs text = fold_left insert_domain (Str.split_ws text) new_Map.
Proof. destruct text; reflexivity. Qed.

Lemma isExcluded_doParsePrefs text hostname :
  isExcluded (doParsePrefs text) hostname = true <->
  exists pattern, In pattern (patterns text) /\ covers pattern hostname.
Proof.
  unfold isExcluded. rewrite doParsePrefs_fold, walk_fold_insert_domain.
  rewrite walk_parts_new_Map. unfold patterns, covers. split.
  - intros [?|(d & Hin & Ht & Hk)]; [discriminate|].
    exists d. split; [apply filter_In; auto|].
    apply (split_suffix "."), rev_prefix_suffix. exact Hk.
  - intros (d & Hin & Hc). right. apply filter_In in Hin as [Hin Ht].
    exists d. repeat split; try assumption.
    apply rev_prefix_suffix, (split_suffix "."). exact Hc.
Qed.



(** ** The sub-decision on the hostname *)


(** ** The derived-URL heuristic *)

Section DerivedURL.

Variable newURL : string -> option URL.

Lemma longer_than_spec s n : longer_than s n = true <-> (n < String.length s)%nat.
Proof. unfold longer_than. apply Nat.ltb_lt. Qed.

(** What [isDerivedURL] answers once both URLs are parsed and the current
    one starts with [http]. *)
Lemma isDerivedURL_parsed currentUrl requestedUrl cur req :
  newURL currentUrl = Some cur ->
  newURL requestedUrl = Some req ->
  Str.startsWith currentUrl "http" = true ->
  isDerivedURL newURL currentUrl requestedUrl =
  Some (String.eqb currentUrl requestedUrl ||
        String.eqb (hostname req) (hostname cur) ||
        negb (String.eqb (protocol cur) "https:") && same_nonempty_tail cur req)%bool.
Proof.
  intros Hc Hr Hs. unfold isDerivedURL. rewrite Hc, Hr, Hs.
  destruct (String.eqb currentUrl requestedUrl); [reflexivity|].
  cbn [negb orb].
  destruct (String.eqb (hostname req) (hostname cur)); [reflexivity|].
  destruct (String.eqb (protocol cur) "https:"); [reflexivity|].
  cbn [negb orb andb]. now destruct (same_nonempty_tail cur req).
Qed.

(** C5, amended.  On a page whose URL uses [https:], the requested URL is
    judged derived exactly when it has the hostname of the page: the
    same-hostname test comes before the test of the encrypted scheme. *)
Theorem isDerivedURL_on_encrypted_page currentUrl requestedUrl cur req :
  newURL currentUrl = Some cur ->
  newURL requestedUrl = Some req ->
  Str.startsWith currentUrl "http" = true ->
  protocol cur = "https:" ->
  isDerivedURL newURL currentUrl requestedUrl =
  Some (String.eqb (hostname req) (hostname cur)).
Proof.
  intros Hc Hr Hs Hp.
  rewrite (isDerivedURL_parsed _ _ _ _ Hc Hr Hs), Hp.
  change (String.eqb "https:" "https:") with true. cbn [negb andb].
  rewrite orb_false_r.
  destruct (String.eqb currentUrl requestedUrl) eqn:E; [|reflexivity].
  apply String.eqb_eq in E. subst requestedUrl.
  rewrite Hc in Hr. injection Hr as ->. now rewrite String.eqb_refl.
Qed.

(** C7, amended.  When the two URLs differ, the current one is a parsed
    [http] URL that is not [https:] and the hostnames differ, the answer is
    "derived" exactly when the path, the query or the fragment of the
    request is more than its delimiter and all three are the same on both
    sides; otherwise it is "not derived". *)
Theorem isDerivedURL_final_stage currentUrl requestedUrl cur req :
  currentUrl <> requestedUrl ->
  Str.startsWith currentUrl "http" = true ->
  newURL currentUrl = Some cur ->
  newURL requestedUrl = Some req ->
  hostname req <> hostname cur ->
  protocol cur <> "https:" ->
  exists derived,
    isDerivedURL newURL currentUrl requestedUrl = Some derived /\
    (derived = true <->
     ((1 < String.length (pathname req))%nat \/
      (2 < String.length (search req))%nat \/
      (2 < String.length (hash req))%nat) /\
     pathname req = pathname cur /\
     search req = search cur /\
     hash req = hash cur).
Proof.
  intros Hne Hs Hc Hr Hh Hp.
  rewrite (isDerivedURL_parsed _ _ _ _ Hc Hr Hs).
  apply String.eqb_neq in Hne, Hh, Hp. rewrite Hne, Hh, Hp.
  cbn [orb negb andb]. eexists. split; [reflexivity|].
  unfold same_nonempty_tail.
  rewrite !andb_true_iff, !orb_true_iff, !longer_than_spec, !String.eqb_eq.
  tauto.
Qed.

End DerivedURL.

(** C5, as stated, fails: the page and the request have the same hostname,
    and [isDerivedURL("https://a.com/", "http://a.com/")] is [true]. *)
Lemma isDerivedURL_same_host_on_encrypted_page :
  isDerivedURL UrlModel.parse_url "https://a.com/" "http://a.com/" = Some true /\
  isDerivedURL UrlModel.parse_url "https://a.com/" "http://a.com/" <> Some false.
Proof. split; [vm_compute; reflexivity | vm_compute; discriminate]. Qed.

Lemma isDerivedURL_on_encrypted_page_witness :
  isDerivedURL UrlModel.parse_url "https://a.com/" "http://b.com/" = Some false.
Proof.
  apply (isDerivedURL_on_encrypted_page UrlModel.parse_url
           "https://a.com/" "http://b.com/"
           (mkURL "https:" "a.com" "/" EmptyString EmptyString) (mkURL "http:" "b.com" "/" EmptyString EmptyString));
    reflexivity.
Defined.

(** C7, as stated, fails: a request that repeats only the path of the page
    on another host is derived, although query and fragment are empty. *)
Lemma isDerivedURL_path_alone_suffices :
  ~ (forall currentUrl requestedUrl cur req,
       currentUrl <> requestedUrl ->
       Str.startsWith currentUrl "http" = true ->
       UrlModel.parse_url currentUrl = Some cur ->
       UrlModel.parse_url requestedUrl = Some req ->
       hostname req <> hostname cur ->
       protocol cur <> "https:" ->
       isDerivedURL UrlModel.parse_url currentUrl requestedUrl =
       Some (Contract.each_nontrivial_and_equal cur req)).
Proof.
  intros H.
  specialize (H "http://a.com/x" "http://b.com/x"
                (mkURL "http:" "a.com" "/x" EmptyString EmptyString) (mkURL "http:" "b.com" "/x" EmptyString EmptyString)).
  vm_compute in H.
  assert (Some true = Some false) as E by (apply H; try reflexivity; discriminate).
  discriminate E.
Qed.

Lemma isDerivedURL_final_stage_witness :
  exists derived,
    isDerivedURL UrlModel.parse_url "http://a.com/x" "http://b.com/x" = Some derived /\
    (derived = true <->
     ((1 < String.length "/x")%nat \/ (2 < String.length EmptyString)%nat \/
      (2 < String.length EmptyString)%nat) /\
     "/x" = "/x" /\ EmptyString = EmptyString /\ EmptyString = EmptyString).
Proof.
  apply (isDerivedURL_final_stage UrlModel.parse_url
           "http://a.com/x" "http://b.com/x"
           (mkURL "http:" "a.com" "/x" EmptyString EmptyString) (mkURL "http:" "b.com" "/x" EmptyString EmptyString));
    try reflexivity; discriminate.
Defined.

(** ** The tracking of pending redirects *)

Lemma In_addListener f g ls : In g (addListener f ls) <-> g = f \/ In g ls.
Proof.
  unfold addListener. destruct (existsb (Nat.eqb f) ls) eqn:E.
  - split; [now right|]. intros [->|?]; [|assumption].
    apply existsb_exists in E as (x & Hx & Heq).
    apply Nat.eqb_eq in Heq. now subst x.
  - rewrite in_app_iff. simpl. intuition congruence.
Qed.

Lemma In_removeListener f g ls : In g (removeListener f ls) <-> g <> f /\ In g ls.
Proof.
  unfold removeListener. rewrite filter_In, negb_true_iff, Nat.eqb_neq.
  intuition congruence.
Qed.

Lemma shrinks_refl st : shrinks st st.
Proof. split; auto. Qed.

Lemma shrinks_trans st1 st2 st3 : shrinks st1 st2 -> shrinks st2 st3 -> shrinks st1 st3.
Proof.
  intros [] []. split; try congruence; auto.
Qed.

Lemma unregister_shrinks r st : shrinks st (unregister r st).
Proof.
  unfold unregister. destruct (objects st !! r) as [info|]; [|apply shrinks_refl].
  split; cbn; try reflexivity.
  - intros t r' H. now apply lookup_delete_Some in H.
  - intros r' H. now apply In_removeListener in H.
  - intros r' H. now apply In_removeListener in H.
  - intros r' H. now apply In_removeListener in H.
Qed.

(** What [unregister] achieves for its own object. *)
Lemma unregister_settles r info st :
  objects st !! r = Some info ->
  tabPendingRedirectInfos (unregister r st) !! ri_tabId info = None /\
  detached (unregister r st) r.
Proof.
  intros H. unfold unregister, detached. rewrite H. cbn.
  rewrite lookup_delete_eq, !In_removeListener. intuition congruence.
Qed.

Lemma fold_unregister_shrinks rs : forall st,
  shrinks st (fold_left (fun s r => unregister r s) rs st).
Proof.
  induction rs as [|r rs IH]; intros st; simpl; [apply shrinks_refl|].
  eapply shrinks_trans; [apply unregister_shrinks | apply IH].
Qed.

Lemma detached_shrinks st st' r : shrinks st st' -> detached st r -> detached st' r.
Proof. intros [] (H1 & H2 & H3). repeat split; auto. Qed.

Lemma pending_None_shrinks st st' t :
  shrinks st st' ->
  tabPendingRedirectInfos st !! t = None -> tabPendingRedirectInfos st' !! t = None.
Proof.
  intros Hs Hn. destruct (tabPendingRedirectInfos st' !! t) as [r|] eqn:E; [|reflexivity].
  apply (shrinks_pending _ _ Hs) in E. congruence.
Qed.

(** Once the listeners that an event reaches include those of [r], the
    object [r] is settled when the event has been handled. *)
Lemma fold_unregister_settles rs : forall st r info,
  In r rs ->
  objects st !! r = Some info ->
  let st' := fold_left (fun s r => unregister r s) rs st in
  tabPendingRedirectInfos st' !! ri_tabId info = None /\ detached st' r.
Proof.
  induction rs as [|a rs IH]; intros st r info Hin Hobj; [destruct Hin|].
  simpl. destruct (Nat.eq_dec a r) as [->|Hne].
  - destruct (unregister_settles r info st Hobj) as [Hp Hd].
    pose proof (fold_unregister_shrinks rs (unregister r st)) as Hs.
    split; [eapply pending_None_shrinks | eapply detached_shrinks]; eassumption.
  - destruct Hin as [?|Hin]; [congruence|].
    apply IH; [assumption|].
    now rewrite (shrinks_objects _ _ (unregister_shrinks a st)).
Qed.

Lemma unregisterRedirectInfo_shrinks t st : shrinks st (unregisterRedirectInfo t st).
Proof.
  unfold unregisterRedirectInfo.
  destruct (tabPendingRedirectInfos st !! t) as [r|]; [|apply shrinks_refl].
  eapply shrinks_trans; [apply unregister_shrinks|].
  split; cbn; try reflexivity; auto.
  intros t' r' H. now apply lookup_delete_Some in H.
Qed.

Lemma unregisterRedirectInfo_clears t st :
  tabPendingRedirectInfos (unregisterRedirectInfo t st) !! t = None.
Proof.
  unfold unregisterRedirectInfo.
  destruct (tabPendingRedirectInfos st !! t) as [r|] eqn:E; [|assumption].
  cbn. apply lookup_delete_eq.
Qed.

Lemma unregisterRedirectInfo_idle t st :
  tabPendingRedirectInfos st !! t = None -> unregisterRedirectInfo t st = st.
Proof. intros H. unfold unregisterRedirectInfo. now rewrite H. Qed.

(** The state that [registerRedirectInfo] leaves. *)
Lemma registerRedirectInfo_spec t u st :
  let r := next_ref st in
  let st' := registerRedirectInfo t u st in
  tabCreationTimes st' = tabCreationTimes st /\
  next_ref st' = S r /\
  tabPendingRedirectInfos st' !! t = Some r /\
  objects st' !! r = Some (mkRedirectInfo t u JS.Null) /\
  In r (onHeadersReceived_listeners st') /\
  In r (onErrorOccurred_listeners st') /\
  (forall t' r', tabPendingRedirectInfos st' !! t' = Some r' ->
                 t' = t \/ tabPendingRedirectInfos st !! t' = Some r') /\
  (forall r', r' <> r -> detached st r' -> detached st' r').
Proof.
  intros r st'. subst st'. unfold registerRedirectInfo. fold r.
  set (st1 := set_objects _ _ st).
  pose proof (unregisterRedirectInfo_shrinks t st1) as Hs.
  set (st2 := unregisterRedirectInfo t st1) in *.
  destruct Hs as [Hc Ho Hn Hp Hh Hr He]. cbn in *.
  repeat match goal with |- _ /\ _ => split end.
  - exact Hc.
  - exact Hn.
  - apply lookup_insert_eq.
  - rewrite Ho. apply lookup_insert_eq.
  - apply In_addListener. now left.
  - apply In_addListener. now left.
  - intros t' r' H. apply lookup_insert_Some in H as [[-> _]|[Hne H]]; [now left|].
    right. now apply Hp.
  - intros r' Hne (H1 & H2 & H3). unfold detached. cbn.
    rewrite !In_addListener. intuition.
Qed.

Lemma onHeadersReceived_pending r details st :
  tabCreationTimes (onHeadersReceived r details st) = tabCreationTimes st /\
  forall t r', tabPendingRedirectInfos (onHeadersReceived r details st) !! t = Some r' ->
               tabPendingRedirectInfos st !! t = Some r'.
Proof.
  unfold onHeadersReceived. destruct (objects st !! r) as [info|]; [|auto].
  destruct (not_a_redirect_status _).
  - destruct (unregister_shrinks r st); auto.
  - destruct (negb _); cbn; auto.
Qed.

(** The guard of [onHeadersReceived]: a redirect status reported to an
    object that is not the entry of its tab changes nothing. *)
Lemma onHeadersReceived_stale_redirect r info details st :
  objects st !! r = Some info ->
  tabPendingRedirectInfos st !! ri_tabId info <> Some r ->
  not_a_redirect_status (get_property details "statusCode") = false ->
  onHeadersReceived r details st = st.
Proof.
  intros Ho Hp Hs. unfold onHeadersReceived. rewrite Ho, Hs.
  now rewrite bool_decide_eq_false_2.
Qed.

(** A redirect status reported to the object that is the entry of its tab
    stores the property [requestedId] of the details, which they do not have,
    and adds the response listener; from then on the retried-request test
    holds for the details of any request. *)
Lemma onHeadersReceived_redirect_stores_undefined r info details st :
  objects st !! r = Some info ->
  tabPendingRedirectInfos st !! ri_tabId info = Some r ->
  not_a_redirect_status (get_property details "statusCode") = false ->
  let st' := onHeadersReceived r details st in
  pending_info st' (ri_tabId info) =
    Some (mkRedirectInfo (ri_tabId info) (ri_url info) JS.Undefined) /\
  In r (onResponseStarted_listeners st') /\
  forall details',
    is_retried_request st' (ri_tabId info) (get_property details' "requestedId") = true.
Proof.
  intros Ho Hp Hs st'. subst st'. unfold onHeadersReceived.
  rewrite Ho, Hs, bool_decide_eq_true_2 by assumption. cbn [negb].
  unfold pending_info, is_retried_request. cbn.
  rewrite Hp, lookup_insert_eq. cbn.
  repeat split. apply In_addListener. now left.
Qed.

(** Any other status reported to an object deletes the entry of its tab,
    whichever object the entry holds. *)
Lemma onHeadersReceived_other_status_deletes_entry r info details st :
  objects st !! r = Some info ->
  not_a_redirect_status (get_property details "statusCode") = true ->
  tabPendingRedirectInfos (onHeadersReceived r details st) !! ri_tabId info = None.
Proof.
  intros Ho Hs. unfold onHeadersReceived. rewrite Ho, Hs.
  now apply unregister_settles.
Qed.

(** ** The request listener *)

Lemma replace_http rest : Str.replace ":" "s:" ("http:" +:+ rest) = "https:" +:+ rest.
Proof. reflexivity. Qed.

Section Listener.

Variable newURL : string -> option URL.

(** The listener either leaves the state as it is, or registers the
    request for a tab whose creation time is recorded. *)
Lemma decide_for_tab_cases details currentTab st :
  (exists resp, decide_for_tab newURL details currentTab st = (resp, st) /\
                (forall u, resp = RedirectUrl u ->
                           tabCreationTimes st !! tabId details = None /\
                           u = Str.replace ":" "s:" (url details))) \/
  (is_Some (tabCreationTimes st !! tabId details) /\
   decide_for_tab newURL details currentTab st =
   (RedirectUrl (Str.replace ":" "s:" (url details)),
    registerRedirectInfo (tabId details) (url details) st)).
Proof.
  unfold decide_for_tab.
  destruct (match currentTab with Some tab => placeholder_veto _ _ _ | None => false end);
    [left; eexists; split; [reflexivity | discriminate]|].
  destruct (match currentTab with Some tab => isDerivedURL _ _ _ | None => Some false end)
    as [[|]|]; try (left; eexists; split; [reflexivity | discriminate]).
  destruct (bool_decide (is_Some (tabCreationTimes st !! tabId details))) eqn:E.
  - apply bool_decide_eq_true in E.
    destruct (is_retried_request _ _ _);
      [left; eexists; split; [reflexivity | discriminate]|].
    destruct (is_repeated_while_loading _ _ _ _);
      [left; eexists; split; [reflexivity | discriminate]|].
    right. now split.
  - apply bool_decide_eq_false in E. left. eexists. split; [reflexivity|].
    intros u [= <-]. split; [|reflexivity].
    destruct (tabCreationTimes st !! tabId details) eqn:F; [|reflexivity].
    exfalso. apply E. eauto.
Qed.

Lemma onBeforeRequest_cases details currentTab st :
  (exists resp, onBeforeRequest newURL details currentTab st = (resp, st) /\
                (forall u, resp = RedirectUrl u ->
                           tabCreationTimes st !! tabId details = None /\
                           u = Str.replace ":" "s:" (url details))) \/
  (is_Some (tabCreationTimes st !! tabId details) /\
   onBeforeRequest newURL details currentTab st =
   (RedirectUrl (Str.replace ":" "s:" (url details)),
    registerRedirectInfo (tabId details) (url details) st)).
Proof.
  unfold onBeforeRequest.
  destruct (match originUrl details with Some u => Str.truthy u | None => false end);
    [left; eexists; split; [reflexivity | discriminate]|].
  destruct (Z.eqb (tabId details) (-1));
    [left; eexists; split; [reflexivity | discriminate]|].
  destruct (shouldRedirectToHttps newURL (domains_nohttps st) (url details)) as [[|]|];
    try (left; eexists; split; [reflexivity | discriminate]).
  apply decide_for_tab_cases.
Qed.



(** The invariant of the registry is kept by every listener. *)
Lemma handle_keeps_pending_tabs_known e st :
  pending_tabs_are_known st -> pending_tabs_are_known (handle newURL e st).
Proof.
  unfold pending_tabs_are_known. intros Inv.
  assert (forall st', shrinks st st' ->
            forall t, is_Some (tabPendingRedirectInfos st' !! t) ->
                      is_Some (tabCreationTimes st' !! t)) as Hshr.
  { intros st' Hs t [r Hr]. rewrite (shrinks_creation _ _ Hs).
    apply Inv. exists r. now apply (shrinks_pending _ _ Hs). }
  assert (forall t0 u0, is_Some (tabCreationTimes st !! t0) ->
            forall t, is_Some (tabPendingRedirectInfos (registerRedirectInfo t0 u0 st) !! t) ->
                      is_Some (tabCreationTimes (registerRedirectInfo t0 u0 st) !! t)) as Hreg.
  { intros t0 u0 Hk t [r Hr].
    destruct (registerRedirectInfo_spec t0 u0 st) as (Hc & _ & _ & _ & _ & _ & Hp & _).
    rewrite Hc. apply Hp in Hr as [->|Hr]; [assumption | apply Inv; eauto]. }
  destruct e; cbn [handle].
  - (* TabCreated *)
    unfold tabs_onCreated. destruct (truthy_id (tab_id tab)); [|exact Inv].
    destruct (tab_active tab); cbn; intros t Hp;
      (destruct (decide (tab_id tab = t)) as [->|Hne];
       [rewrite lookup_insert_eq; eauto | rewrite lookup_insert_ne by assumption; auto]).
  - (* TabActivated *)
    exact Inv.
  - (* TabRemoved *)
    unfold tabs_onRemoved.
    set (st2 := set_tabActivatedTimes _ _).
    pose proof (unregisterRedirectInfo_shrinks tabId0 st2) as Hs.
    pose proof (unregisterRedirectInfo_clears tabId0 st2) as Hc.
    intros t [r Hr]. rewrite (shrinks_creation _ _ Hs). subst st2. cbn.
    destruct (decide (tabId0 = t)) as [->|Hne]; [congruence|].
    rewrite lookup_delete_ne by assumption.
    apply Inv. exists r. now apply (shrinks_pending _ _ Hs) in Hr.
  - (* TabsQueried *)
    unfold tabs_query_then. clear Hshr Hreg. revert st Inv.
    induction tabs as [|tab tabs IH]; intros st Inv; [exact Inv|].
    cbn [fold_left]. apply IH.
    unfold tabs_query_one. cbn. intros t Hp.
    destruct (decide (tab_id tab = t)) as [->|Hne];
      [rewrite lookup_insert_eq; eauto | rewrite lookup_insert_ne by assumption; auto].
  - (* StorageChanged *)
    unfold storage_onChanged.
    destruct new_domains_nohttps, new_enable_logging; exact Inv.
  - (* BeforeRequest *)
    destruct (onBeforeRequest_cases details currentTab st) as [(resp & E & _)|[Hk E]];
      rewrite E; cbn [snd]; [exact Inv|].
    now apply Hreg.
  - (* BeforeRequestResumed *)
    destruct (decide_for_tab_cases details currentTab st) as [(resp & E & _)|[Hk E]];
      rewrite E; cbn [snd]; [exact Inv|].
    now apply Hreg.
  - (* HeadersReceived *)
    unfold fire_onHeadersReceived.
    generalize (List.filter (listens_to_tab st details) (onHeadersReceived_listeners st)).
    intros rs. clear Hshr Hreg. revert st Inv.
    induction rs as [|r rs IH]; intros st Inv; [exact Inv|].
    cbn [fold_left]. apply IH. intros t [r' Hr'].
    destruct (onHeadersReceived_pending r details st) as [Hc Hp].
    rewrite Hc. apply Inv. eauto.
  - (* ResponseStarted *)
    apply Hshr, fold_unregister_shrinks.
  - (* ErrorOccurred *)
    apply Hshr, fold_unregister_shrinks.
  - (* QueuedHeadersReceived *)
    intros t [r' Hr'].
    destruct (onHeadersReceived_pending r details st) as [Hc Hp].
    rewrite Hc. apply Inv. eauto.
  - (* QueuedUnregister *)
    apply Hshr, unregister_shrinks.
Qed.

Lemma reachable_pending_tabs_known st :
  reachable newURL st -> pending_tabs_are_known st.
Proof.
  induction 1 as [|e st _ IH].
  - intros t [r Hr]. cbn in Hr. now rewrite lookup_empty in Hr.
  - now apply handle_keeps_pending_tabs_known.
Qed.

(** C10.  When the listener approves an upgrade for a tab whose creation
    was never recorded, it answers with the [https:] URL, whatever is
    pending for the tab, and leaves the state as it is: nothing is armed.
    Hence, in every state the background page can reach, a tab with a
    pending redirect has a recorded creation time. *)
Theorem unknown_tab_upgrade_arms_nothing :
  (forall st details currentTab rest,
     tabCreationTimes st !! tabId details = None ->
     url details = "http:" +:+ rest ->
     (match originUrl details with Some o => Str.truthy o | None => false end) = false ->
     tabId details <> -1 ->
     shouldRedirectToHttps newURL (domains_nohttps st) (url details) = Some true ->
     match currentTab with
     | Some tab => placeholder_veto details tab st = false /\
                   isDerivedURL newURL (tab_url tab) (url details) = Some false
     | None => True
     end ->
     onBeforeRequest newURL details currentTab st =
     (RedirectUrl ("https:" +:+ rest), st)) /\
  (forall st, reachable newURL st ->
     forall tabId, is_Some (tabPendingRedirectInfos st !! tabId) ->
                   is_Some (tabCreationTimes st !! tabId)).
Proof.
  split; [|exact reachable_pending_tabs_known].
  intros st details currentTab rest Hnone Hurl Horigin Htab Hshould Hct.
  unfold onBeforeRequest. rewrite Horigin.
  apply Z.eqb_neq in Htab. rewrite Htab, Hshould.
  unfold decide_for_tab.
  assert (bool_decide (is_Some (tabCreationTimes st !! tabId details)) = false) as ->.
  { apply bool_decide_eq_false. rewrite Hnone. now intros [? ?]. }
  destruct currentTab as [tab|].
  - destruct Hct as [-> ->]. now rewrite Hurl.
  - now rewrite Hurl.
Qed.

End Listener.

(** ** The scenarios of the documentation, run on the script *)

Lemma shouldRedirectToHttps_example_com domains :
  shouldRedirectToHttps UrlModel.parse_url domains "http://example.com/" =
  Some (negb (isExcluded domains "example.com")).
Proof.
  unfold shouldRedirectToHttps.
  change (UrlModel.parse_url "http://example.com/")
    with (Some (mkURL "http:" "example.com" "/" EmptyString EmptyString)).
  cbn [hostname].
  change (negb (Str.includes "example.com" ".")) with false.
  change (Str.endsWith "example.com" ".test") with false.
  change (Str.endsWith "example.com" ".example") with false.
  change (Str.endsWith "example.com" ".invalid") with false.
  change (Str.endsWith "example.com" ".localhost") with false.
  change (is_ipv4_literal "example.com") with false.
  change (Str.startsWith "example.com" "[") with false.
  cbn [orb andb]. now destruct (isExcluded domains "example.com").
Qed.

(** C4, amended.  A tab was created on [about:blank] and activated at [T0],
    both recorded in the ledger, and nothing is pending for it.  A request
    for [http://example.com/] without origin URL that arrives less than one
    second after [T0] is left alone; from one second on it is redirected to
    [https://example.com/], and the object then pending for the tab records
    the intercepted URL [http://example.com/]. *)
Theorem placeholder_tab_upgrade st t rid T0 dt tab :
  t <> -1 ->
  tab_url tab = "about:blank" ->
  tabCreationTimes st !! t = Some T0 ->
  tabActivatedTimes st !! t = Some T0 ->
  tabPendingRedirectInfos st !! t = None ->
  isExcluded (domains_nohttps st) "example.com" = false ->
  let details :=
    {| tabId := t; url := "http://example.com/"; requestId := rid;
       originUrl := None; timeStamp := T0 + dt; statusCode := None |} in
  let result := onBeforeRequest UrlModel.parse_url details (Some tab) st in
  (dt < 1000 -> result = (Proceed, st)) /\
  (1000 <= dt ->
   fst result = RedirectUrl "https://example.com/" /\
   pending_info (snd result) t =
   Some (mkRedirectInfo t "http://example.com/" JS.Null)).
Proof.
  intros Ht Hurl Hc Ha Hp Hex details result. subst result.
  unfold onBeforeRequest. cbn [originUrl tabId url details].
  apply Z.eqb_neq in Ht. rewrite Ht.
  rewrite shouldRedirectToHttps_example_com, Hex. cbn [negb].
  unfold decide_for_tab, placeholder_veto.
  cbn [tabId url timeStamp details]. rewrite Hurl, Hc.
  change (String.eqb "about:blank" "about:blank") with true. cbn match.
  unfold JS.map_get_num. rewrite Ha, Hc.
  cbn [JS.strict_eq JS.minus JS.to_number JS.lt].
  replace (T0 + dt - T0) with dt by lia.
  split; intros Hdt.
  - apply Z.ltb_lt in Hdt. now rewrite Hdt.
  - assert ((dt <? 1000) = false) as -> by (apply Z.ltb_ge; lia).
    assert ((dt <? 300) = false) as -> by (apply Z.ltb_ge; lia).
    change (isDerivedURL UrlModel.parse_url "about:blank" "http://example.com/")
      with (Some false).
    cbn match.
    rewrite bool_decide_eq_true_2 by eauto.
    unfold is_retried_request, is_repeated_while_loading. rewrite Hp.
    cbn [fst snd]. split; [reflexivity|].
    destruct (registerRedirectInfo_spec t "http://example.com/" st)
      as (_ & _ & Hp' & Ho' & _).
    unfold pending_info. now rewrite Hp', Ho'.
Qed.

(** C4, as stated, fails: half a second after the tab was created and
    activated, the request is not redirected and nothing is armed. *)
Lemma placeholder_tab_half_second_not_upgraded :
  onBeforeRequest UrlModel.parse_url
    (Scenario.typed 1 "http://example.com/" "100" (Scenario.T0 + 500))
    (Some (Scenario.blank_tab 1)) Scenario.fresh_tab_state
  = (Proceed, Scenario.fresh_tab_state) /\
  pending_info Scenario.fresh_tab_state 1 = None.
Proof. split; vm_compute; reflexivity. Qed.

Lemma placeholder_tab_upgrade_witness :
  fst (onBeforeRequest UrlModel.parse_url
         (Scenario.typed 1 "http://example.com/" "100" (Scenario.T0 + 1000))
         (Some (Scenario.blank_tab 1)) Scenario.fresh_tab_state)
  = RedirectUrl "https://example.com/" /\
  pending_info
    (snd (onBeforeRequest UrlModel.parse_url
            (Scenario.typed 1 "http://example.com/" "100" (Scenario.T0 + 1000))
            (Some (Scenario.blank_tab 1)) Scenario.fresh_tab_state)) 1
  = Some (mkRedirectInfo 1 "http://example.com/" JS.Null).
Proof.
  apply (placeholder_tab_upgrade Scenario.fresh_tab_state 1 "100" Scenario.T0 1000
           (Scenario.blank_tab 1)); try reflexivity; lia.
Defined.



Lemma unknown_tab_upgrade_arms_nothing_witness :
  onBeforeRequest UrlModel.parse_url
    (Scenario.typed 7 "http://example.com/" "100" Scenario.T0) None initial_state
  = (RedirectUrl "https://example.com/", initial_state).
Proof.
  apply (proj1 (unknown_tab_upgrade_arms_nothing UrlModel.parse_url)
           initial_state
           (Scenario.typed 7 "http://example.com/" "100" Scenario.T0)
           None "//example.com/").
  - reflexivity.
  - reflexivity.
  - reflexivity.
  - discriminate.
  - vm_compute. reflexivity.
  - exact I.
Defined.

(** C1, on the script.  The upgrade of [http://example.com/] is pending on
    tab 1 and the server answers the request [100] with a 302.  The object
    then holds [undefined] where the request identifier was to be recorded,
    because the details have no property [requestedId]; the retried-request
    test then holds for the details of every request, and a navigation of
    the tab to another address with the identifier [200] is left alone,
    although the same request is redirected in the state before the 302. *)
Theorem redirect_records_undefined_request_id :
  pending_info Scenario.armed_state 1 =
    Some (mkRedirectInfo 1 "http://example.com/" JS.Null) /\
  pending_info Scenario.redirected_state 1 =
    Some (mkRedirectInfo 1 "http://example.com/" JS.Undefined) /\
  (forall details,
     is_retried_request Scenario.redirected_state 1
       (get_property details "requestedId") = true) /\
  fst (onBeforeRequest UrlModel.parse_url
         (Scenario.typed 1 "http://other.net/" "200" (Scenario.T0 + 9000))
         (Some (Scenario.tab_showing 1 "https://www.example.com/"))
         Scenario.armed_state) = RedirectUrl "https://other.net/" /\
  fst (onBeforeRequest UrlModel.parse_url
         (Scenario.typed 1 "http://other.net/" "200" (Scenario.T0 + 9000))
         (Some (Scenario.tab_showing 1 "https://www.example.com/"))
         Scenario.redirected_state) = Proceed.
Proof.
  repeat match goal with |- _ /\ _ => split end;
    try (vm_compute; reflexivity).
Qed.

(** C2, on the script.  The object 0 tracked the first upgrade of tab 1 and
    was superseded by the object 1.  A header event that was queued for the
    object 0 and reports the status 200 deletes the entry of the tab, which
    holds the object 1, and leaves the listeners of the object 1 in place.
    A response or error event queued for the object 0 deletes the entry as
    well. *)
Theorem stale_response_deletes_current_entry :
  tabPendingRedirectInfos Scenario.superseded_state !! 1 = Some 1%nat /\
  detached Scenario.superseded_state 0%nat /\
  let st' :=
    onHeadersReceived 0%nat
      (Scenario.response 1 "https://example.com/" "100" 200 (Scenario.T0 + 6100))
      Scenario.superseded_state in
  tabPendingRedirectInfos st' !! 1 = None /\
  onHeadersReceived_listeners st' = [1%nat] /\
  onErrorOccurred_listeners st' = [1%nat] /\
  st' <> Scenario.superseded_state /\
  tabPendingRedirectInfos (unregister 0%nat Scenario.superseded_state) !! 1 = None.
Proof.
  split; [vm_compute; reflexivity|].
  split; [vm_compute; intuition discriminate|].
  cbv zeta. repeat match goal with |- _ /\ _ => split end;
    try (vm_compute; reflexivity).
  intros H. apply (f_equal (fun s => tabPendingRedirectInfos s !! 1)) in H.
  vm_compute in H. discriminate H.
Qed.

(** The activation time plays no part when none was recorded: the
    last-accessed time of the tab is never read. *)
Lemma placeholder_veto_ignores_lastAccessed details tab tab' st :
  tab_url tab = tab_url tab' ->
  placeholder_veto details tab st = placeholder_veto details tab' st.
Proof. intros H. unfold placeholder_veto. now rewrite H. Qed.

(** C6, on the script.  Tab 2 was created in the background at [T0] and
    last accessed then; no activation time is recorded.  Half a second
    later the documented fallback vetoes the request, while the script,
    whose fallback test is on [tabId], compares with NaN and redirects. *)
Theorem activation_fallback_is_not_taken :
  tabCreationTimes Scenario.background_state !! 2 = Some Scenario.T0 /\
  tabActivatedTimes Scenario.background_state !! 2 = None /\
  Contract.placeholder_veto
    (Scenario.typed 2 "http://example.com/" "100" (Scenario.T0 + 500))
    (Scenario.background_tab 2 Scenario.T0) Scenario.background_state = true /\
  placeholder_veto
    (Scenario.typed 2 "http://example.com/" "100" (Scenario.T0 + 500))
    (Scenario.background_tab 2 Scenario.T0) Scenario.background_state = false /\
  fst (onBeforeRequest UrlModel.parse_url
         (Scenario.typed 2 "http://example.com/" "100" (Scenario.T0 + 500))
         (Some (Scenario.background_tab 2 Scenario.T0)) Scenario.background_state)
  = RedirectUrl "https://example.com/".
Proof. repeat split; vm_compute; reflexivity. Qed.

(** * Further properties of the script *)

(** ** The domain list *)

Lemma filter_split_ws_flag b s :
  List.filter Str.truthy (Str.split_ws_from b s) =
  List.filter Str.truthy (Str.split_ws_from false s).
Proof.
  destruct s as [|a s]; [reflexivity|].
  destruct (Str.is_space a) eqn:E.
  - now rewrite !(split_ws_from_space _ a s E).
  - now rewrite !(split_ws_from_nonspace _ a s E).
Qed.

Lemma split_ws_hd_tl s :
  Str.split_ws_from false s =
  hd EmptyString (Str.split_ws_from false s) :: tl (Str.split_ws_from false s).
Proof.
  destruct (Str.split_ws_from false s) eqn:E; [|reflexivity].
  now apply split_ws_from_not_nil in E.
Qed.

Lemma split_ws_app_hd sp t1 t2 :
  Str.is_space sp = true ->
  hd EmptyString (Str.split_ws_from false (t1 +:+ String sp t2)) =
  hd EmptyString (Str.split_ws_from false t1).
Proof.
  intros Hsp. induction t1 as [|a t1 IH].
  - rewrite append_nil_l. simpl. now rewrite Hsp.
  - rewrite append_cons. destruct (Str.is_space a) eqn:E.
    + simpl. now rewrite E.
    + rewrite !(split_ws_from_nonspace false a _ E). cbn [hd]. now rewrite IH.
Qed.

Lemma split_ws_app sp t1 t2 : forall b,
  Str.is_space sp = true ->
  List.filter Str.truthy (Str.split_ws_from b (t1 +:+ String sp t2)) =
  List.filter Str.truthy (Str.split_ws_from b t1) ++
  List.filter Str.truthy (Str.split_ws_from false t2).
Proof.
  intros b Hsp. revert b. induction t1 as [|a t1 IH]; intros b.
  - rewrite append_nil_l, (split_ws_from_space b sp t2 Hsp).
    rewrite (filter_split_ws_flag true t2). now destruct b.
  - rewrite append_cons. destruct (Str.is_space a) eqn:E.
    + rewrite !(split_ws_from_space b a _ E). apply IH.
    + rewrite !(split_ws_from_nonspace b a _ E).
      rewrite (split_ws_app_hd sp t1 t2 Hsp).
      cbn [List.filter Str.truthy app]. f_equal.
      specialize (IH false).
      rewrite (split_ws_hd_tl (t1 +:+ String sp t2)) in IH.
      rewrite (split_ws_hd_tl t1) in IH at 1.
      rewrite (split_ws_app_hd sp t1 t2 Hsp) in IH.
      cbn [List.filter] in IH.
      destruct (Str.truthy (hd EmptyString (Str.split_ws_from false t1)));
        [now injection IH | exact IH].
Qed.

Lemma patterns_app sp t1 t2 :
  Str.is_space sp = true ->
  patterns (t1 +:+ String sp t2) = patterns t1 ++ patterns t2.
Proof. intros Hsp. unfold patterns, Str.split_ws. now apply split_ws_app. Qed.

(** Two domain lists written one after the other, with white space in
    between, exclude what either of them excludes. *)
Theorem doParsePrefs_append sp t1 t2 hostname :
  Str.is_space sp = true ->
  isExcluded (doParsePrefs (t1 +:+ String sp t2)) hostname =
  (isExcluded (doParsePrefs t1) hostname || isExcluded (doParsePrefs t2) hostname)%bool.
Proof.
  intros Hsp. apply eq_true_iff_eq.
  rewrite orb_true_iff, !isExcluded_doParsePrefs, (patterns_app sp t1 t2 Hsp).
  split.
  - intros (p & Hin & Hc). apply in_app_iff in Hin as [Hin|Hin]; [left|right]; eauto.
  - intros [(p & Hin & Hc)|(p & Hin & Hc)]; exists p;
      (split; [apply in_app_iff; auto | assumption]).
Qed.

Lemma doParsePrefs_append_witness :
  isExcluded (doParsePrefs ("example.com" +:+ String " " "intranet.corp")) "db.intranet.corp" =
  (isExcluded (doParsePrefs "example.com") "db.intranet.corp" ||
   isExcluded (doParsePrefs "intranet.corp") "db.intranet.corp")%bool.
Proof.
  apply (doParsePrefs_append " " "example.com" "intranet.corp" "db.intranet.corp").
  reflexivity.
Defined.

Lemma patterns_only_blanks text : only_blanks text = true -> patterns text = [].
Proof.
  unfold patterns, Str.split_ws. generalize false.
  induction text as [|a text IH]; intros b H; [reflexivity|].
  cbn [only_blanks] in H. apply andb_true_iff in H as [Ha H].
  rewrite (split_ws_from_space b a text Ha). now apply IH.
Qed.

(** A domain list that is empty or holds only white space excludes no
    hostname. *)
Theorem doParsePrefs_only_blanks text hostname :
  only_blanks text = true ->
  isExcluded (doParsePrefs text) hostname = false.
Proof.
  intros H. apply not_true_is_false. intros Hex.
  apply isExcluded_doParsePrefs in Hex as (p & Hin & _).
  now rewrite (patterns_only_blanks text H) in Hin.
Qed.

Lemma doParsePrefs_only_blanks_witness :
  isExcluded (doParsePrefs (String " " (String "009" (String "010" " ")))) "example.com" = false.
Proof. apply doParsePrefs_only_blanks. reflexivity. Defined.

(** Inserting one domain into any domain map excludes the hostnames that
    were excluded before and those that the domain covers, and no other; the
    empty domain is skipped. *)
Theorem insert_domain_excludes root domain hostname :
  isExcluded (insert_domain root domain) hostname = true <->
  isExcluded root hostname = true \/
  (domain <> EmptyString /\
   (hostname = domain \/ exists x, hostname = x +:+ "." +:+ domain)).
Proof.
  unfold isExcluded. rewrite walk_insert_domain.
  split; (intros [?|[Hd Hc]]; [now left|right]).
  - split; [now destruct domain|].
    apply (split_suffix "."), rev_prefix_suffix. exact Hc.
  - split; [now destruct domain|].
    apply rev_prefix_suffix, (split_suffix "."). exact Hc.
Qed.

Lemma isExcluded_covered text pattern hostname :
  is_pattern_of text pattern ->
  hostname = pattern \/ (exists x, hostname = x +:+ "." +:+ pattern) ->
  isExcluded (doParsePrefs text) hostname = true.
Proof.
  intros Hp Hc. apply isExcluded_doParsePrefs. exists pattern.
  split; [now apply In_patterns_iff | exact Hc].
Qed.

(** The hostnames covered by a pattern of the domain list are never
    approved, whatever else the URL holds. *)
Theorem shouldRedirectToHttps_excluded newURL text pattern requestedUrl u :
  is_pattern_of text pattern ->
  newURL requestedUrl = Some u ->
  hostname u = pattern \/ (exists x, hostname u = x +:+ "." +:+ pattern) ->
  shouldRedirectToHttps newURL (doParsePrefs text) requestedUrl = Some false.
Proof.
  intros Hp Hu Hc. unfold shouldRedirectToHttps. rewrite Hu. cbv zeta.
  rewrite (isExcluded_covered text pattern (hostname u) Hp Hc).
  destruct (negb (Str.includes (hostname u) ".")); [reflexivity|].
  destruct (Str.endsWith (hostname u) ".test" || Str.endsWith (hostname u) ".example" ||
            Str.endsWith (hostname u) ".invalid" ||
            Str.endsWith (hostname u) ".localhost")%bool; [reflexivity|].
  destruct (is_ipv4_literal (hostname u) ||
            Str.startsWith (hostname u) "[" && Str.endsWith (hostname u) "]")%bool;
    reflexivity.
Qed.

Lemma shouldRedirectToHttps_excluded_witness :
  shouldRedirectToHttps UrlModel.parse_url (doParsePrefs "example.com")
    "http://www.example.com/login?next=1" = Some false.
Proof.
  apply (shouldRedirectToHttps_excluded UrlModel.parse_url "example.com" "example.com"
           "http://www.example.com/login?next=1"
           (mkURL "http:" "www.example.com" "/login" "?next=1" EmptyString)).
  - repeat split; [discriminate|].
    exists EmptyString, EmptyString. now repeat split.
  - reflexivity.
  - right. exists "www". reflexivity.
Defined.

(** ** The agreement of registry, store and listeners *)

Lemma tracking_wf_initial : tracking_wf initial_state.
Proof.
  split; cbn; intros; try contradiction;
    try (rewrite lookup_empty in *; try discriminate);
    match goal with H : is_Some None |- _ => now destruct H end.
Qed.

Lemma tracking_wf_unregister r st : tracking_wf st -> tracking_wf (unregister r st).
Proof.
  intros [We Wl Wf Wh Ws Wr]. unfold unregister.
  destruct (objects st !! r) as [info|] eqn:Ho; [|now split].
  split; cbn.
  - intros t r0 H. apply lookup_delete_Some in H as [_ H]. exact (We _ _ H).
  - intros t r0 H. apply lookup_delete_Some in H as [Hne H].
    destruct (Wl t r0 H) as [H1 H2].
    assert (r0 <> r) as Hr.
    { intros ->. destruct (We t r H) as (info' & Ho' & Ht). congruence. }
    rewrite !In_removeListener. auto.
  - exact Wf.
  - intros r0 H. apply In_removeListener in H as [_ H]. now apply Wh.
  - intros r0 H. apply In_removeListener in H as [_ H]. now apply Ws.
  - intros r0 H. apply In_removeListener in H as [_ H]. now apply Wr.
Qed.

Lemma tracking_wf_delete_entry t st :
  tracking_wf st ->
  tracking_wf (set_tabPendingRedirectInfos (delete t (tabPendingRedirectInfos st)) st).
Proof.
  intros [We Wl Wf Wh Ws Wr]. split; cbn; try assumption.
  - intros t0 r0 H. apply lookup_delete_Some in H as [_ H]. exact (We _ _ H).
  - intros t0 r0 H. apply lookup_delete_Some in H as [_ H]. exact (Wl _ _ H).
Qed.

Lemma tracking_wf_unregisterRedirectInfo t st :
  tracking_wf st -> tracking_wf (unregisterRedirectInfo t st).
Proof.
  intros W. unfold unregisterRedirectInfo.
  destruct (tabPendingRedirectInfos st !! t); [|assumption].
  now apply tracking_wf_delete_entry, tracking_wf_unregister.
Qed.

Lemma tracking_wf_onHeadersReceived r details st :
  tracking_wf st -> tracking_wf (onHeadersReceived r details st).
Proof.
  intros W. unfold onHeadersReceived.
  destruct (objects st !! r) as [info|] eqn:Ho; [|assumption].
  destruct (not_a_redirect_status _); [now apply tracking_wf_unregister|].
  destruct (negb _); [assumption|].
  destruct W as [We Wl Wf Wh Ws Wr]. split; cbn.
  - intros t r0 H. destruct (We t r0 H) as (i0 & Hi0 & Ht).
    destruct (decide (r = r0)) as [->|Hne].
    + rewrite lookup_insert_eq. eexists. split; [reflexivity|]. cbn. congruence.
    + rewrite lookup_insert_ne by assumption. eauto.
  - exact Wl.
  - intros r0 H. apply lookup_insert_is_Some in H as [<-|[_ H]]; [|now apply Wf].
    apply Wf. eauto.
  - intros r0 H. apply lookup_insert_is_Some'. right. now apply Wh.
  - intros r0 H. apply lookup_insert_is_Some'.
    apply In_addListener in H as [->|H]; [now left | right; now apply Ws].
  - intros r0 H. apply lookup_insert_is_Some'. right. now apply Wr.
Qed.

Lemma tracking_wf_registerRedirectInfo t u st :
  tracking_wf st -> tracking_wf (registerRedirectInfo t u st).
Proof.
  intros [We Wl Wf Wh Ws Wr]. unfold registerRedirectInfo.
  set (r := next_ref st).
  set (st1 := set_objects _ _ st).
  assert (tracking_wf st1) as W1.
  { subst st1. split; cbn.
    - intros t0 r0 H. destruct (We t0 r0 H) as (i0 & Hi0 & Ht).
      exists i0. split; [|assumption].
      rewrite lookup_insert_ne; [assumption|].
      intros <-. assert (r < next_ref st)%nat by (apply Wf; eauto). subst r. lia.
    - exact Wl.
    - intros r0 H. apply lookup_insert_is_Some in H as [<-|[_ H]]; [lia|].
      apply Wf in H. lia.
    - intros r0 H. apply lookup_insert_is_Some'. right. now apply Wh.
    - intros r0 H. apply lookup_insert_is_Some'. right. now apply Ws.
    - intros r0 H. apply lookup_insert_is_Some'. right. now apply Wr. }
  pose proof (tracking_wf_unregisterRedirectInfo t st1 W1) as W2.
  pose proof (unregisterRedirectInfo_shrinks t st1) as Hs.
  set (st2 := unregisterRedirectInfo t st1) in *.
  assert (objects st2 !! r = Some (mkRedirectInfo t u JS.Null)) as Hr.
  { rewrite (shrinks_objects _ _ Hs). subst st1. cbn. apply lookup_insert_eq. }
  destruct W2 as [We2 Wl2 Wf2 Wh2 Ws2 Wr2]. split; cbn.
  - intros t0 r0 H. apply lookup_insert_Some in H as [[<- <-]|[_ H]]; [|exact (We2 _ _ H)].
    eexists. split; [exact Hr | reflexivity].
  - intros t0 r0 H. rewrite !In_addListener.
    apply lookup_insert_Some in H as [[<- <-]|[_ H]]; [auto|].
    destruct (Wl2 t0 r0 H). auto.
  - exact Wf2.
  - intros r0 H. apply In_addListener in H as [->|H]; [eauto | now apply Wh2].
  - exact Ws2.
  - intros r0 H. apply In_addListener in H as [->|H]; [eauto | now apply Wr2].
Qed.

Lemma tracking_wf_fold_unregister rs : forall st,
  tracking_wf st -> tracking_wf (fold_left (fun s r => unregister r s) rs st).
Proof.
  induction rs as [|r rs IH]; intros st W; [assumption|].
  apply IH. now apply tracking_wf_unregister.
Qed.

Section TrackingInvariant.

Variable newURL : string -> option URL.

Lemma handle_keeps_tracking_wf e st :
  tracking_wf st -> tracking_wf (handle newURL e st).
Proof.
  intros W. destruct e; cbn [handle].
  - unfold tabs_onCreated. destruct (truthy_id _); [|assumption].
    destruct (tab_active tab); destruct W; now split.
  - destruct W; now split.
  - unfold tabs_onRemoved. apply tracking_wf_unregisterRedirectInfo.
    destruct W; now split.
  - unfold tabs_query_then. revert st W.
    induction tabs as [|tab tabs IH]; intros st W; [assumption|].
    cbn [fold_left]. apply IH. destruct W; now split.
  - unfold storage_onChanged.
    destruct new_domains_nohttps, new_enable_logging; destruct W; now split.
  - destruct (onBeforeRequest_cases newURL details currentTab st) as [(resp & E & _)|[_ E]];
      rewrite E; cbn [snd]; [assumption|].
    now apply tracking_wf_registerRedirectInfo.
  - destruct (decide_for_tab_cases newURL details currentTab st) as [(resp & E & _)|[_ E]];
      rewrite E; cbn [snd]; [assumption|].
    now apply tracking_wf_registerRedirectInfo.
  - unfold fire_onHeadersReceived.
    generalize (List.filter (listens_to_tab st details) (onHeadersReceived_listeners st)).
    intros rs. revert st W.
    induction rs as [|r rs IH]; intros st W; [assumption|].
    cbn [fold_left]. apply IH. now apply tracking_wf_onHeadersReceived.
  - now apply tracking_wf_fold_unregister.
  - now apply tracking_wf_fold_unregister.
  - now apply tracking_wf_onHeadersReceived.
  - now apply tracking_wf_unregister.
Qed.

Lemma reachable_tracking_wf st : reachable newURL st -> tracking_wf st.
Proof.
  induction 1; [apply tracking_wf_initial | now apply handle_keeps_tracking_wf].
Qed.

(** In every state that the background page reaches, the object recorded
    for a tab was made for that tab, and its header and error listeners are
    added: a tab with a pending redirect is always observed. *)
Theorem pending_entry_is_observed st t r :
  reachable newURL st ->
  tabPendingRedirectInfos st !! t = Some r ->
  (exists info, objects st !! r = Some info /\ ri_tabId info = t) /\
  In r (onHeadersReceived_listeners st) /\
  In r (onErrorOccurred_listeners st).
Proof.
  intros Hr Hp. destruct (reachable_tracking_wf st Hr) as [We Wl _ _ _ _].
  split; [exact (We _ _ Hp) | exact (Wl _ _ Hp)].
Qed.

End TrackingInvariant.

Lemma reachable_armed_state : reachable UrlModel.parse_url Scenario.armed_state.
Proof.
  change Scenario.armed_state
    with (handle UrlModel.parse_url
            (BeforeRequest (Scenario.typed 1 "http://example.com/" "100" (Scenario.T0 + 5000))
                           (Some (Scenario.blank_tab 1)))
            (handle UrlModel.parse_url (TabCreated (Scenario.blank_tab 1) Scenario.T0)
                    initial_state)).
  do 2 apply reachable_step. apply reachable_initial.
Qed.

Lemma pending_entry_is_observed_witness :
  (exists info, objects Scenario.armed_state !! 0%nat = Some info /\ ri_tabId info = 1) /\
  In 0%nat (onHeadersReceived_listeners Scenario.armed_state) /\
  In 0%nat (onErrorOccurred_listeners Scenario.armed_state).
Proof.
  apply (pending_entry_is_observed UrlModel.parse_url Scenario.armed_state 1 0%nat).
  - exact reachable_armed_state.
  - vm_compute. reflexivity.
Defined.

(** ** The transitions of the tracking *)

Lemma onHeadersReceived_other_status r details st :
  not_a_redirect_status (get_property details "statusCode") = true ->
  onHeadersReceived r details st = unregister r st.
Proof.
  intros Hs. unfold onHeadersReceived, unregister.
  destruct (objects st !! r); [now rewrite Hs | reflexivity].
Qed.

Lemma fold_onHeadersReceived_other_status details rs : forall st,
  not_a_redirect_status (get_property details "statusCode") = true ->
  fold_left (fun s r => onHeadersReceived r details s) rs st =
  fold_left (fun s r => unregister r s) rs st.
Proof.
  induction rs as [|r rs IH]; intros st Hs; [reflexivity|].
  cbn [fold_left]. rewrite (onHeadersReceived_other_status r details st Hs).
  now apply IH.
Qed.

(** What a header event with a redirect status keeps, whichever object it
    is delivered to. *)
Lemma onHeadersReceived_redirect_step r details st :
  not_a_redirect_status (get_property details "statusCode") = false ->
  let st' := onHeadersReceived r details st in
  tabPendingRedirectInfos st' = tabPendingRedirectInfos st /\
  (forall r0 i, objects st !! r0 = Some i ->
     exists i', objects st' !! r0 = Some i' /\ ri_tabId i' = ri_tabId i) /\
  (forall r0, In r0 (onResponseStarted_listeners st) ->
              In r0 (onResponseStarted_listeners st')) /\
  (forall i, objects st !! r = Some i ->
             tabPendingRedirectInfos st !! ri_tabId i = Some r ->
             In r (onResponseStarted_listeners st')).
Proof.
  intros Hs st'. subst st'. unfold onHeadersReceived.
  destruct (objects st !! r) as [info|] eqn:Ho.
  - rewrite Hs.
    destruct (bool_decide (tabPendingRedirectInfos st !! ri_tabId info = Some r)) eqn:E;
      cbn [negb].
    + cbn. repeat match goal with |- _ /\ _ => split end.
      * reflexivity.
      * intros r0 i Hi. destruct (decide (r = r0)) as [->|Hne].
        -- rewrite lookup_insert_eq. eexists. split; [reflexivity|]. cbn. congruence.
        -- rewrite lookup_insert_ne by assumption. eauto.
      * intros r0 H. apply In_addListener. now right.
      * intros _ _ _. apply In_addListener. now left.
    + apply bool_decide_eq_false in E.
      repeat match goal with |- _ /\ _ => split end; eauto.
      intros i [= <-] H. contradiction.
  - repeat match goal with |- _ /\ _ => split end; eauto. discriminate.
Qed.

Lemma fold_onHeadersReceived_redirect details rs : forall st r info,
  not_a_redirect_status (get_property details "statusCode") = false ->
  In r rs ->
  objects st !! r = Some info ->
  tabPendingRedirectInfos st !! ri_tabId info = Some r ->
  let st' := fold_left (fun s r => onHeadersReceived r details s) rs st in
  tabPendingRedirectInfos st' = tabPendingRedirectInfos st /\
  (exists info', objects st' !! r = Some info' /\ ri_tabId info' = ri_tabId info) /\
  In r (onResponseStarted_listeners st').
Proof.
  assert (forall rs st r info,
            not_a_redirect_status (get_property details "statusCode") = false ->
            objects st !! r = Some info ->
            let st' := fold_left (fun s r => onHeadersReceived r details s) rs st in
            tabPendingRedirectInfos st' = tabPendingRedirectInfos st /\
            (exists info', objects st' !! r = Some info' /\ ri_tabId info' = ri_tabId info) /\
            (In r (onResponseStarted_listeners st) ->
             In r (onResponseStarted_listeners st'))) as Hkeep.
  { induction rs0 as [|a rs0 IH]; intros st r info Hs Ho; cbn [fold_left].
    - repeat split; eauto.
    - destruct (onHeadersReceived_redirect_step a details st Hs) as (Hp & Hobj & Hres & _).
      destruct (Hobj r info Ho) as (i1 & Hi1 & Ht1).
      destruct (IH (onHeadersReceived a details st) r i1 Hs Hi1) as (Hp' & (i2 & Hi2 & Ht2) & Hres').
      repeat split.
      + congruence.
      + exists i2. split; [assumption | congruence].
      + auto. }
  induction rs as [|a rs IH]; intros st r info Hs Hin Ho Hp; [destruct Hin|].
  cbn [fold_left].
  destruct (onHeadersReceived_redirect_step a details st Hs) as (Hp1 & Hobj & Hres & Hcur).
  destruct (Hobj r info Ho) as (i1 & Hi1 & Ht1).
  destruct (Nat.eq_dec a r) as [->|Hne].
  - destruct (Hkeep rs (onHeadersReceived r details st) r i1 Hs Hi1)
      as (Hp' & (i2 & Hi2 & Ht2) & Hres').
    repeat split.
    + congruence.
    + exists i2. split; [assumption | congruence].
    + apply Hres'. now apply (Hcur info).
  - destruct Hin as [?|Hin]; [congruence|].
    destruct (IH (onHeadersReceived a details st) r i1 Hs Hin Hi1) as (Hp' & (i2 & Hi2 & Ht2) & Hres').
    { rewrite Hp1, Ht1. exact Hp. }
    repeat split.
    + congruence.
    + exists i2. split; [assumption | congruence].
    + assumption.
Qed.

Lemma registerRedirectInfo_supersedes t u st r0 info0 :
  tabPendingRedirectInfos st !! t = Some r0 ->
  objects st !! r0 = Some info0 ->
  r0 <> next_ref st ->
  detached (registerRedirectInfo t u st) r0.
Proof.
  intros Hp Ho Hne. unfold registerRedirectInfo.
  set (r := next_ref st) in *.
  set (st1 := set_objects _ _ st).
  assert (objects st1 !! r0 = Some info0) as Ho1
    by (subst st1; cbn; now rewrite lookup_insert_ne by congruence).
  assert (unregisterRedirectInfo t st1 =
          set_tabPendingRedirectInfos
            (delete t (tabPendingRedirectInfos (unregister r0 st1))) (unregister r0 st1)) as ->.
  { unfold unregisterRedirectInfo.
    change (tabPendingRedirectInfos st1) with (tabPendingRedirectInfos st). now rewrite Hp. }
  destruct (unregister_settles r0 info0 st1 Ho1) as [_ (H1 & H2 & H3)].
  unfold detached. cbn. rewrite !In_addListener. intuition.
Qed.

Lemma unregister_pending r info st :
  objects st !! r = Some info ->
  tabPendingRedirectInfos (unregister r st) =
  delete (ri_tabId info) (tabPendingRedirectInfos st).
Proof. intros Ho. unfold unregister. now rewrite Ho. Qed.

Lemma unregisterRedirectInfo_activated t st :
  tabActivatedTimes (unregisterRedirectInfo t st) = tabActivatedTimes st.
Proof.
  unfold unregisterRedirectInfo, unregister.
  destruct (tabPendingRedirectInfos st !! t) as [r|]; [|reflexivity].
  now destruct (objects st !! r).
Qed.

Section Transitions.

Variable newURL : string -> option URL.

(** A new upgrade of a tab supersedes the upgrade that was pending for it:
    the listeners of the old object are removed before those of the new one
    are added, and the entry of the tab holds the new object. *)
Theorem registerRedirectInfo_replaces_pending st t u r0 :
  reachable newURL st ->
  tabPendingRedirectInfos st !! t = Some r0 ->
  let st' := registerRedirectInfo t u st in
  detached st' r0 /\
  next_ref st <> r0 /\
  tabPendingRedirectInfos st' !! t = Some (next_ref st) /\
  objects st' !! next_ref st = Some (mkRedirectInfo t u JS.Null).
Proof.
  intros Hr Hp st'. subst st'.
  destruct (reachable_tracking_wf newURL st Hr) as [We _ Wf _ _ _].
  destruct (We t r0 Hp) as (info0 & Ho & _).
  assert (r0 < next_ref st)%nat as Hlt by (apply Wf; eauto).
  destruct (registerRedirectInfo_spec t u st) as (_ & _ & Hp' & Ho' & _).
  split; [|split; [lia | split; assumption]].
  apply (registerRedirectInfo_supersedes t u st r0 info0 Hp Ho). lia.
Qed.

(** When the browser reports the headers of a response that is not a
    redirect for a tab with a pending upgrade, the upgrade is settled: the
    entry of the tab is deleted and the object has no listener left. *)
Theorem other_status_settles st t r details :
  reachable newURL st ->
  tabPendingRedirectInfos st !! t = Some r ->
  tabId details = t ->
  not_a_redirect_status (get_property details "statusCode") = true ->
  let st' := fire_onHeadersReceived details st in
  tabPendingRedirectInfos st' !! t = None /\ detached st' r.
Proof.
  intros Hr Hp Ht Hs st'. subst st'.
  destruct (reachable_tracking_wf newURL st Hr) as [We Wl _ _ _ _].
  destruct (We t r Hp) as (info & Ho & Hti). destruct (Wl t r Hp) as [Hh _].
  unfold fire_onHeadersReceived.
  rewrite (fold_onHeadersReceived_other_status details _ st Hs).
  rewrite <- Hti.
  apply fold_unregister_settles; [|assumption].
  apply filter_In. split; [assumption|].
  unfold listens_to_tab. rewrite Ho. apply Z.eqb_eq. congruence.
Qed.

(** When the browser reports a redirect status for a tab with a pending
    upgrade, the upgrade stays pending and its object starts to listen for
    the start of a response; the next response that starts on the tab
    settles it. *)
Theorem redirect_then_response_settles st t r headers response :
  reachable newURL st ->
  tabPendingRedirectInfos st !! t = Some r ->
  tabId headers = t ->
  not_a_redirect_status (get_property headers "statusCode") = false ->
  tabId response = t ->
  let st1 := fire_onHeadersReceived headers st in
  let st2 := fire_onResponseStarted response st1 in
  tabPendingRedirectInfos st1 !! t = Some r /\
  In r (onResponseStarted_listeners st1) /\
  tabPendingRedirectInfos st2 !! t = None /\
  detached st2 r.
Proof.
  intros Hr Hp Ht Hs Ht2 st1 st2.
  destruct (reachable_tracking_wf newURL st Hr) as [We Wl _ _ _ _].
  destruct (We t r Hp) as (info & Ho & Hti). destruct (Wl t r Hp) as [Hh _].
  assert (In r (List.filter (listens_to_tab st headers) (onHeadersReceived_listeners st)))
    as Hin.
  { apply filter_In. split; [assumption|].
    unfold listens_to_tab. rewrite Ho. apply Z.eqb_eq. congruence. }
  destruct (fold_onHeadersReceived_redirect headers _ st r info Hs Hin Ho)
    as (Hp1 & (info1 & Ho1 & Hti1) & Hres).
  { now rewrite Hti. }
  fold (fire_onHeadersReceived headers st) in Hp1, Ho1, Hres. fold st1 in Hp1, Ho1, Hres.
  assert (tabPendingRedirectInfos st2 !! ri_tabId info1 = None /\ detached st2 r) as [H1 H2].
  { subst st2. unfold fire_onResponseStarted.
    apply fold_unregister_settles; [|assumption].
    apply filter_In. split; [assumption|].
    unfold listens_to_tab. rewrite Ho1. apply Z.eqb_eq. congruence. }
  repeat split; try assumption; try apply H2.
  - now rewrite Hp1.
  - rewrite <- Hti, <- Hti1. exact H1.
Qed.

(** When a tab is removed, its creation time, its activation time and its
    pending upgrade are forgotten and the listeners of the pending object
    are removed; what is recorded for the other tabs stays. *)
Theorem tabs_onRemoved_forgets_tab st t :
  reachable newURL st ->
  let st' := tabs_onRemoved t st in
  tabCreationTimes st' !! t = None /\
  tabActivatedTimes st' !! t = None /\
  tabPendingRedirectInfos st' !! t = None /\
  (forall r, tabPendingRedirectInfos st !! t = Some r -> detached st' r) /\
  (forall t', t' <> t ->
     tabCreationTimes st' !! t' = tabCreationTimes st !! t' /\
     tabActivatedTimes st' !! t' = tabActivatedTimes st !! t' /\
     tabPendingRedirectInfos st' !! t' = tabPendingRedirectInfos st !! t').
Proof.
  intros Hr st'. subst st'.
  destruct (reachable_tracking_wf newURL st Hr) as [We _ _ _ _ _].
  unfold tabs_onRemoved.
  set (st2 := set_tabActivatedTimes _ _).
  pose proof (unregisterRedirectInfo_shrinks t st2) as Hs.
  rewrite (shrinks_creation _ _ Hs), (unregisterRedirectInfo_activated t st2).
  change (tabCreationTimes st2) with (delete t (tabCreationTimes st)).
  change (tabActivatedTimes st2) with (delete t (tabActivatedTimes st)).
  assert (forall t', t' <> t ->
            tabPendingRedirectInfos (unregisterRedirectInfo t st2) !! t' =
            tabPendingRedirectInfos st !! t') as Hother.
  { intros t' Hne. unfold unregisterRedirectInfo.
    change (tabPendingRedirectInfos st2) with (tabPendingRedirectInfos st).
    destruct (tabPendingRedirectInfos st !! t) as [r|] eqn:Hp; [|reflexivity].
    destruct (We t r Hp) as (info & Ho & Hti).
    cbn [tabPendingRedirectInfos set_tabPendingRedirectInfos].
    rewrite (unregister_pending r info st2 Ho), Hti.
    now rewrite !lookup_delete_ne by congruence. }
  repeat match goal with |- _ /\ _ => split end.
  - apply lookup_delete_eq.
  - apply lookup_delete_eq.
  - apply unregisterRedirectInfo_clears.
  - intros r Hp. destruct (We t r Hp) as (info & Ho & Hti).
    unfold unregisterRedirectInfo.
    change (tabPendingRedirectInfos st2) with (tabPendingRedirectInfos st). rewrite Hp.
    destruct (unregister_settles r info st2 Ho) as [_ Hd]. exact Hd.
  - intros t' Hne. rewrite !lookup_delete_ne by congruence. auto.
Qed.

End Transitions.

Lemma registerRedirectInfo_replaces_pending_witness :
  detached (registerRedirectInfo 1 "http://example.org/" Scenario.armed_state) 0%nat /\
  next_ref Scenario.armed_state <> 0%nat /\
  tabPendingRedirectInfos (registerRedirectInfo 1 "http://example.org/" Scenario.armed_state) !! 1
    = Some (next_ref Scenario.armed_state) /\
  objects (registerRedirectInfo 1 "http://example.org/" Scenario.armed_state)
    !! next_ref Scenario.armed_state
    = Some (mkRedirectInfo 1 "http://example.org/" JS.Null).
Proof.
  apply (registerRedirectInfo_replaces_pending UrlModel.parse_url Scenario.armed_state
           1 "http://example.org/" 0%nat).
  - exact reachable_armed_state.
  - vm_compute. reflexivity.
Defined.

Lemma other_status_settles_witness :
  tabPendingRedirectInfos
    (fire_onHeadersReceived
       (Scenario.response 1 "https://example.com/" "100" 200 (Scenario.T0 + 5100))
       Scenario.armed_state) !! 1 = None /\
  detached
    (fire_onHeadersReceived
       (Scenario.response 1 "https://example.com/" "100" 200 (Scenario.T0 + 5100))
       Scenario.armed_state) 0%nat.
Proof.
  apply (other_status_settles UrlModel.parse_url Scenario.armed_state 1 0%nat
           (Scenario.response 1 "https://example.com/" "100" 200 (Scenario.T0 + 5100))).
  - exact reachable_armed_state.
  - vm_compute. reflexivity.
  - reflexivity.
  - reflexivity.
Defined.

Lemma redirect_then_response_settles_witness :
  tabPendingRedirectInfos Scenario.redirected_state !! 1 = Some 0%nat /\
  In 0%nat (onResponseStarted_listeners Scenario.redirected_state) /\
  tabPendingRedirectInfos
    (fire_onResponseStarted
       (Scenario.response 1 "https://www.example.com/" "100" 200 (Scenario.T0 + 5300))
       Scenario.redirected_state) !! 1 = None /\
  detached
    (fire_onResponseStarted
       (Scenario.response 1 "https://www.example.com/" "100" 200 (Scenario.T0 + 5300))
       Scenario.redirected_state) 0%nat.
Proof.
  apply (redirect_then_response_settles UrlModel.parse_url Scenario.armed_state 1 0%nat
           (Scenario.response 1 "https://example.com/" "100" 302 (Scenario.T0 + 5100))
           (Scenario.response 1 "https://www.example.com/" "100" 200 (Scenario.T0 + 5300))).
  - exact reachable_armed_state.
  - vm_compute. reflexivity.
  - reflexivity.
  - reflexivity.
  - reflexivity.
Defined.

Lemma tabs_onRemoved_forgets_tab_witness :
  tabCreationTimes (tabs_onRemoved 1 Scenario.armed_state) !! 1 = None /\
  tabActivatedTimes (tabs_onRemoved 1 Scenario.armed_state) !! 1 = None /\
  tabPendingRedirectInfos (tabs_onRemoved 1 Scenario.armed_state) !! 1 = None /\
  (forall r, tabPendingRedirectInfos Scenario.armed_state !! 1 = Some r ->
             detached (tabs_onRemoved 1 Scenario.armed_state) r) /\
  (forall t', t' <> 1 ->
     tabCreationTimes (tabs_onRemoved 1 Scenario.armed_state) !! t'
       = tabCreationTimes Scenario.armed_state !! t' /\
     tabActivatedTimes (tabs_onRemoved 1 Scenario.armed_state) !! t'
       = tabActivatedTimes Scenario.armed_state !! t' /\
     tabPendingRedirectInfos (tabs_onRemoved 1 Scenario.armed_state) !! t'
       = tabPendingRedirectInfos Scenario.armed_state !! t').
Proof.
  apply (tabs_onRemoved_forgets_tab UrlModel.parse_url Scenario.armed_state 1).
  exact reachable_armed_state.
Defined.

Lemma onHeadersReceived_stale_redirect_witness :
  onHeadersReceived 0%nat
    (Scenario.response 1 "https://example.com/" "100" 302 (Scenario.T0 + 6100))
    Scenario.superseded_state = Scenario.superseded_state.
Proof.
  apply (onHeadersReceived_stale_redirect 0%nat
           (mkRedirectInfo 1 "http://example.com/" JS.Null)).
  - vm_compute. reflexivity.
  - vm_compute. discriminate.
  - reflexivity.
Defined.

(** ** What the request listener never does *)

Section ListenerSafety.

Variable newURL : string -> option URL.

(** Everything that holds when the listener answers with a redirection. *)
Lemma onBeforeRequest_redirect_inv details currentTab st u st' :
  onBeforeRequest newURL details currentTab st = (RedirectUrl u, st') ->
  (match originUrl details with Some o => Str.truthy o | None => false end) = false /\
  tabId details <> -1 /\
  shouldRedirectToHttps newURL (domains_nohttps st) (url details) = Some true /\
  u = Str.replace ":" "s:" (url details) /\
  (forall tab, currentTab = Some tab ->
     placeholder_veto details tab st = false /\
     isDerivedURL newURL (tab_url tab) (url details) = Some false) /\
  (is_Some (tabCreationTimes st !! tabId details) ->
   is_retried_request st (tabId details) (get_property details "requestedId") = false /\
   is_repeated_while_loading st (tabId details) (url details) currentTab = false).
Proof.
  unfold onBeforeRequest.
  destruct (match originUrl details with Some o => Str.truthy o | None => false end);
    [discriminate|].
  destruct (Z.eqb (tabId details) (-1)) eqn:Et; [discriminate|].
  apply Z.eqb_neq in Et.
  destruct (shouldRedirectToHttps newURL (domains_nohttps st) (url details)) as [[|]|];
    try discriminate.
  unfold decide_for_tab.
  destruct currentTab as [tab|].
  - destruct (placeholder_veto details tab st) eqn:Ev; [discriminate|].
    destruct (isDerivedURL newURL (tab_url tab) (url details)) as [[|]|] eqn:Ed;
      try discriminate.
    destruct (bool_decide (is_Some (tabCreationTimes st !! tabId details))) eqn:E.
    + destruct (is_retried_request _ _ _); [discriminate|].
      destruct (is_repeated_while_loading _ _ _ _); [discriminate|].
      intros [= <- <-].
      repeat match goal with |- _ /\ _ => split end; try assumption; try reflexivity.
      * intros tab' [= <-]. now split.
      * intros _. now split.
    + apply bool_decide_eq_false in E.
      intros [= <- <-].
      repeat match goal with |- _ /\ _ => split end; try assumption; try reflexivity.
      * intros tab' [= <-]. now split.
      * intros H. contradiction.
  - destruct (bool_decide (is_Some (tabCreationTimes st !! tabId details))) eqn:E.
    + destruct (is_retried_request _ _ _); [discriminate|].
      destruct (is_repeated_while_loading _ _ _ _); [discriminate|].
      intros [= <- <-].
      repeat match goal with |- _ /\ _ => split end; try assumption; try reflexivity.
      * discriminate.
      * intros _. now split.
    + apply bool_decide_eq_false in E.
      intros [= <- <-].
      repeat match goal with |- _ /\ _ => split end; try assumption; try reflexivity.
      * discriminate.
      * intros H. contradiction.
Qed.

(** Once a domain list is stored, a request for a host that one of its
    patterns covers is never redirected, whatever the tab and the timing,
    and handling it changes nothing. *)
Theorem excluded_host_is_never_redirected st text logging pattern details currentTab u :
  is_pattern_of text pattern ->
  newURL (url details) = Some u ->
  hostname u = pattern \/ (exists x, hostname u = x +:+ "." +:+ pattern) ->
  let st1 := storage_onChanged (Some text) logging st in
  onBeforeRequest newURL details currentTab st1 = (Proceed, st1).
Proof.
  intros Hp Hu Hc st1. unfold onBeforeRequest.
  destruct (match originUrl details with Some o => Str.truthy o | None => false end);
    [reflexivity|].
  destruct (Z.eqb (tabId details) (-1)); [reflexivity|].
  assert (domains_nohttps st1 = doParsePrefs text) as ->
    by (subst st1; unfold storage_onChanged; now destruct logging).
  unfold shouldRedirectToHttps. rewrite Hu. cbv zeta.
  rewrite (isExcluded_covered text pattern (hostname u) Hp Hc).
  destruct (negb (Str.includes (hostname u) ".")); [reflexivity|].
  destruct (Str.endsWith (hostname u) ".test" || Str.endsWith (hostname u) ".example" ||
            Str.endsWith (hostname u) ".invalid" ||
            Str.endsWith (hostname u) ".localhost")%bool; [reflexivity|].
  destruct (is_ipv4_literal (hostname u) ||
            Str.startsWith (hostname u) "[" && Str.endsWith (hostname u) "]")%bool;
    reflexivity.
Qed.

(** The listener has four outcomes for an [http:] request: it lets it
    proceed or throws, both without touching the state; or it redirects to
    the same address with [https:] in place of [http:], either without
    touching the state or after registering the request for the tab. *)
Theorem onBeforeRequest_outcomes details currentTab st rest :
  url details = "http:" +:+ rest ->
  let result := onBeforeRequest newURL details currentTab st in
  result = (Proceed, st) \/
  result = (Threw, st) \/
  result = (RedirectUrl ("https:" +:+ rest), st) \/
  result = (RedirectUrl ("https:" +:+ rest),
            registerRedirectInfo (tabId details) (url details) st).
Proof.
  intros Hu result. subst result.
  assert (Str.replace ":" "s:" (url details) = "https:" +:+ rest) as Hrep
    by (rewrite Hu; apply replace_http).
  destruct (onBeforeRequest_cases newURL details currentTab st) as [(resp & E & Hr)|[_ E]].
  - rewrite E. destruct resp as [|u|].
    + now left.
    + destruct (Hr u eq_refl) as [_ ->]. rewrite Hrep.
      right. right. now left.
    + right. now left.
  - rewrite E, Hrep. right. right. now right.
Qed.

Lemma shouldRedirectToHttps_parsed domains requestedUrl u :
  newURL requestedUrl = Some u ->
  exists b, shouldRedirectToHttps newURL domains requestedUrl = Some b.
Proof. intros Hu. unfold shouldRedirectToHttps. rewrite Hu. eauto. Qed.

Lemma isDerivedURL_requested_parsed currentUrl requestedUrl u :
  newURL requestedUrl = Some u ->
  exists b, isDerivedURL newURL currentUrl requestedUrl = Some b.
Proof.
  intros Hu. unfold isDerivedURL. rewrite Hu.
  destruct (String.eqb currentUrl requestedUrl); [eauto|].
  destruct (negb (Str.startsWith currentUrl "http")); [eauto|].
  destruct (newURL currentUrl) as [cur|]; [|eauto].
  destruct (String.eqb (hostname u) (hostname cur)); [eauto|].
  destruct (String.eqb (protocol cur) "https:"); [eauto|].
  destruct (same_nonempty_tail cur u); eauto.
Qed.

Lemma onBeforeRequest_parsed_does_not_throw details currentTab st u :
  newURL (url details) = Some u ->
  fst (onBeforeRequest newURL details currentTab st) <> Threw.
Proof.
  intros Hu. unfold onBeforeRequest.
  destruct (match originUrl details with Some o => Str.truthy o | None => false end);
    [discriminate|].
  destruct (Z.eqb (tabId details) (-1)); [discriminate|].
  destruct (shouldRedirectToHttps_parsed (domains_nohttps st) (url details) u Hu) as [b ->].
  destruct b; [|discriminate].
  unfold decide_for_tab.
  destruct (match currentTab with Some tab => placeholder_veto _ _ _ | None => false end);
    [discriminate|].
  assert (exists v,
            match currentTab with
            | Some tab => isDerivedURL newURL (tab_url tab) (url details)
            | None => Some false
            end = Some v) as [v ->].
  { destruct currentTab as [tab|]; [|eauto].
    now apply (isDerivedURL_requested_parsed (tab_url tab) (url details) u). }
  destruct v; [discriminate|].
  destruct (bool_decide _); [|discriminate].
  destruct (is_retried_request _ _ _); [discriminate|].
  destruct (is_repeated_while_loading _ _ _ _); discriminate.
Qed.

(** The listener throws only when [new URL] rejects the requested URL, and
    then it has changed nothing. *)
Theorem onBeforeRequest_throws_only_on_bad_url details currentTab st :
  fst (onBeforeRequest newURL details currentTab st) = Threw ->
  newURL (url details) = None /\
  snd (onBeforeRequest newURL details currentTab st) = st.
Proof.
  intros H. split.
  - destruct (newURL (url details)) as [u|] eqn:Hu; [|reflexivity].
    now apply (onBeforeRequest_parsed_does_not_throw details currentTab st u Hu) in H.
  - destruct (onBeforeRequest_cases newURL details currentTab st) as [(resp & E & _)|[_ E]];
      rewrite E in H |- *; [reflexivity | discriminate H].
Qed.

(** On a tab that shows [about:blank], a request is redirected only when
    the creation of the tab was recorded at least 300 ms before the request
    and, if an activation was recorded, at least one second before it. *)
Theorem placeholder_tab_redirect_is_late details tab st u st' :
  onBeforeRequest newURL details (Some tab) st = (RedirectUrl u, st') ->
  tab_url tab = "about:blank" ->
  exists created,
    tabCreationTimes st !! tabId details = Some created /\
    300 <= timeStamp details - created /\
    forall activated,
      tabActivatedTimes st !! tabId details = Some activated ->
      1000 <= timeStamp details - activated.
Proof.
  intros H Hurl.
  destruct (onBeforeRequest_redirect_inv _ _ _ _ _ H) as (_ & _ & _ & _ & Hct & _).
  destruct (Hct tab eq_refl) as [Hv _]. clear Hct H.
  unfold placeholder_veto in Hv. rewrite Hurl in Hv.
  change (String.eqb "about:blank" "about:blank") with true in Hv. cbn match in Hv.
  destruct (tabCreationTimes st !! tabId details) as [created|] eqn:Hc; [|discriminate].
  unfold JS.map_get_num in Hv. rewrite Hc in Hv.
  cbn [JS.strict_eq] in Hv.
  exists created. split; [reflexivity|].
  destruct (tabActivatedTimes st !! tabId details) as [activated|];
    cbn [JS.minus JS.to_number JS.lt] in Hv.
  - destruct (Z.ltb_spec (timeStamp details - activated) 1000); [discriminate|].
    destruct (Z.ltb_spec (timeStamp details - created) 300); [discriminate|].
    split; [assumption|]. now intros a [= <-].
  - destruct (Z.ltb_spec (timeStamp details - created) 300); [discriminate|].
    split; [assumption | discriminate].
Qed.

(** While the tab is still loading, a request for the very URL whose
    upgrade is pending for the tab is left alone, and the pending upgrade
    stays as it is. *)
Theorem repeated_request_while_loading_proceeds details tab st r info :
  is_Some (tabCreationTimes st !! tabId details) ->
  tabPendingRedirectInfos st !! tabId details = Some r ->
  objects st !! r = Some info ->
  ri_url info = url details ->
  tab_status tab = "loading" ->
  newURL (url details) <> None ->
  onBeforeRequest newURL details (Some tab) st = (Proceed, st).
Proof.
  intros Hk Hp Ho Hu Hl Hparse.
  destruct (newURL (url details)) as [v|] eqn:Hv; [|congruence].
  pose proof (onBeforeRequest_parsed_does_not_throw details (Some tab) st v Hv) as Hthrow.
  destruct (onBeforeRequest_cases newURL details (Some tab) st) as [(resp & E & Hr)|[_ E]].
  - rewrite E in Hthrow |- *. destruct resp as [|u|]; [reflexivity| |now cbn in Hthrow].
    destruct (Hr u eq_refl) as [Hn _]. rewrite Hn in Hk. now destruct Hk.
  - destruct (onBeforeRequest_redirect_inv _ _ _ _ _ E) as (_ & _ & _ & _ & _ & Hveto).
    destruct (Hveto Hk) as [_ Hrep].
    unfold is_repeated_while_loading in Hrep. rewrite Hp, Ho, Hu, Hl in Hrep.
    rewrite String.eqb_refl in Hrep. discriminate Hrep.
Qed.

End ListenerSafety.

(** After the enumeration at start-up, every tab that was listed has a
    creation time and an activation time; the tracking is not touched. *)
Theorem tabs_query_then_records_all tabs now st tab :
  In tab tabs ->
  let st' := tabs_query_then tabs now st in
  is_Some (tabCreationTimes st' !! tab_id tab) /\
  is_Some (tabActivatedTimes st' !! tab_id tab) /\
  tabPendingRedirectInfos st' = tabPendingRedirectInfos st.
Proof.
  unfold tabs_query_then.
  assert (forall tabs st id,
            let st' := fold_left (tabs_query_one now) tabs st in
            (is_Some (tabCreationTimes st !! id) -> is_Some (tabCreationTimes st' !! id)) /\
            (is_Some (tabActivatedTimes st !! id) -> is_Some (tabActivatedTimes st' !! id)) /\
            tabPendingRedirectInfos st' = tabPendingRedirectInfos st) as Hkeep.
  { induction tabs0 as [|a tabs0 IH]; intros st0 id; cbn [fold_left]; [auto|].
    destruct (IH (tabs_query_one now st0 a) id) as (H1 & H2 & H3).
    split; [|split].
    - intros H. apply H1. unfold tabs_query_one. cbn.
      apply lookup_insert_is_Some'. now right.
    - intros H. apply H2. unfold tabs_query_one. cbn.
      apply lookup_insert_is_Some'. now right.
    - rewrite H3. reflexivity. }
  revert st. induction tabs as [|a tabs IH]; intros st Hin; [destruct Hin|].
  cbn [fold_left]. destruct Hin as [->|Hin].
  - destruct (Hkeep tabs (tabs_query_one now st tab) (tab_id tab)) as (H1 & H2 & H3).
    split; [|split].
    + apply H1. unfold tabs_query_one. cbn. rewrite lookup_insert_eq. eauto.
    + apply H2. unfold tabs_query_one. cbn. rewrite lookup_insert_eq. eauto.
    + rewrite H3. reflexivity.
  - destruct (IH (tabs_query_one now st a) Hin) as (H1 & H2 & H3).
    split; [assumption|split; [assumption|]]. rewrite H3. reflexivity.
Qed.

Lemma excluded_host_is_never_redirected_witness :
  onBeforeRequest UrlModel.parse_url
    (Scenario.typed 1 "http://www.example.com/" "100" (Scenario.T0 + 5000))
    (Some (Scenario.tab_showing 1 "about:home"))
    (storage_onChanged (Some "example.com") None Scenario.fresh_tab_state)
  = (Proceed, storage_onChanged (Some "example.com") None Scenario.fresh_tab_state).
Proof.
  apply (excluded_host_is_never_redirected UrlModel.parse_url Scenario.fresh_tab_state
           "example.com" None "example.com"
           (Scenario.typed 1 "http://www.example.com/" "100" (Scenario.T0 + 5000))
           (Some (Scenario.tab_showing 1 "about:home"))
           (mkURL "http:" "www.example.com" "/" EmptyString EmptyString)).
  - repeat split; [discriminate|].
    exists EmptyString, EmptyString. now repeat split.
  - reflexivity.
  - right. exists "www". reflexivity.
Defined.

Lemma onBeforeRequest_outcomes_witness :
  let result :=
    onBeforeRequest UrlModel.parse_url
      (Scenario.typed 1 "http://example.com:8080/a" "100" (Scenario.T0 + 5000))
      (Some (Scenario.blank_tab 1)) Scenario.fresh_tab_state in
  result = (Proceed, Scenario.fresh_tab_state) \/
  result = (Threw, Scenario.fresh_tab_state) \/
  result = (RedirectUrl ("https:" +:+ "//example.com:8080/a"), Scenario.fresh_tab_state) \/
  result = (RedirectUrl ("https:" +:+ "//example.com:8080/a"),
            registerRedirectInfo 1 "http://example.com:8080/a" Scenario.fresh_tab_state).
Proof.
  apply (onBeforeRequest_outcomes UrlModel.parse_url
           (Scenario.typed 1 "http://example.com:8080/a" "100" (Scenario.T0 + 5000))
           (Some (Scenario.blank_tab 1)) Scenario.fresh_tab_state "//example.com:8080/a").
  reflexivity.
Defined.

Lemma onBeforeRequest_throws_only_on_bad_url_witness :
  UrlModel.parse_url "http://" = None /\
  snd (onBeforeRequest UrlModel.parse_url
         (Scenario.typed 1 "http://" "100" (Scenario.T0 + 5000))
         (Some (Scenario.blank_tab 1)) Scenario.fresh_tab_state)
  = Scenario.fresh_tab_state.
Proof.
  apply (onBeforeRequest_throws_only_on_bad_url UrlModel.parse_url
           (Scenario.typed 1 "http://" "100" (Scenario.T0 + 5000))
           (Some (Scenario.blank_tab 1)) Scenario.fresh_tab_state).
  vm_compute. reflexivity.
Defined.

Lemma placeholder_tab_redirect_is_late_witness :
  exists created,
    tabCreationTimes Scenario.fresh_tab_state !! 1 = Some created /\
    300 <= Scenario.T0 + 5000 - created /\
    forall activated,
      tabActivatedTimes Scenario.fresh_tab_state !! 1 = Some activated ->
      1000 <= Scenario.T0 + 5000 - activated.
Proof.
  apply (placeholder_tab_redirect_is_late UrlModel.parse_url
           (Scenario.typed 1 "http://example.com/" "100" (Scenario.T0 + 5000))
           (Scenario.blank_tab 1) Scenario.fresh_tab_state
           "https://example.com/" Scenario.armed_state).
  - vm_compute. reflexivity.
  - reflexivity.
Defined.

Lemma repeated_request_while_loading_proceeds_witness :
  onBeforeRequest UrlModel.parse_url
    (Scenario.typed 1 "http://example.com/" "102" (Scenario.T0 + 7000))
    (Some (mkTab 1 "about:home" "loading" true None)) Scenario.armed_state
  = (Proceed, Scenario.armed_state).
Proof.
  apply (repeated_request_while_loading_proceeds UrlModel.parse_url
           (Scenario.typed 1 "http://example.com/" "102" (Scenario.T0 + 7000))
           (mkTab 1 "about:home" "loading" true None) Scenario.armed_state
           0%nat (mkRedirectInfo 1 "http://example.com/" JS.Null)).
  - vm_compute. eauto.
  - vm_compute. reflexivity.
  - vm_compute. reflexivity.
  - reflexivity.
  - reflexivity.
  - vm_compute. discriminate.
Defined.

Lemma tabs_query_then_records_all_witness :
  let st' :=
    tabs_query_then [Scenario.blank_tab 1; Scenario.background_tab 2 Scenario.T0]
                    (Scenario.T0 + 10) initial_state in
  is_Some (tabCreationTimes st' !! 2) /\
  is_Some (tabActivatedTimes st' !! 2) /\
  tabPendingRedirectInfos st' = tabPendingRedirectInfos initial_state.
Proof.
  apply (tabs_query_then_records_all
           [Scenario.blank_tab 1; Scenario.background_tab 2 Scenario.T0]
           (Scenario.T0 + 10) initial_state (Scenario.background_tab 2 Scenario.T0)).
  simpl. auto.
Defined.

(** ** No listener is left behind *)

Lemma unregister_keeps_no_leak a st :
  no_listener_leak st -> current_or_settled st a ->
  no_listener_leak (unregister a st) /\
  forall r, current_or_settled st r -> current_or_settled (unregister a st) r.
Proof.
  intros Hl Ha. unfold unregister.
  destruct (objects st !! a) as [ia|] eqn:Hoa; [|now split].
  split.
  - intros r Hin. cbn in Hin. rewrite !In_removeListener in Hin.
    assert (r <> a) as Hne by tauto.
    destruct (Hl r) as (info & Ho & Hp); [tauto|].
    exists info. split; [exact Ho|]. cbn.
    rewrite lookup_delete_ne; [exact Hp|].
    intros E. rewrite <- E in Hp.
    destruct (Ha ia Hoa) as [H|H]; congruence.
  - intros r Hr info Ho. cbn in Ho |- *.
    destruct (decide (ri_tabId ia = ri_tabId info)) as [E|E].
    + right. rewrite <- E. apply lookup_delete_eq.
    + rewrite lookup_delete_ne by assumption. now apply Hr.
Qed.

Lemma onHeadersReceived_keeps_no_leak details a st :
  no_listener_leak st -> current_or_settled st a ->
  no_listener_leak (onHeadersReceived a details st) /\
  forall r, current_or_settled st r ->
            current_or_settled (onHeadersReceived a details st) r.
Proof.
  intros Hl Ha.
  destruct (not_a_redirect_status (get_property details "statusCode")) eqn:Hs.
  - rewrite (onHeadersReceived_other_status a details st Hs).
    now apply unregister_keeps_no_leak.
  - unfold onHeadersReceived. rewrite Hs.
    destruct (objects st !! a) as [ia|] eqn:Hoa; [|now split].
    destruct (bool_decide (tabPendingRedirectInfos st !! ri_tabId ia = Some a)) eqn:E;
      cbn [negb]; [|now split].
    apply bool_decide_eq_true in E. split.
    + intros r Hin. cbn in Hin |- *.
      destruct (decide (a = r)) as [<-|Hne].
      * rewrite lookup_insert_eq. eexists. split; [reflexivity | exact E].
      * rewrite lookup_insert_ne by assumption. apply Hl.
        rewrite In_addListener in Hin. intuition congruence.
    + intros r Hr info Ho. cbn in Ho |- *.
      destruct (decide (a = r)) as [<-|Hne].
      * rewrite lookup_insert_eq in Ho. injection Ho as <-. cbn. now left.
      * rewrite lookup_insert_ne in Ho by assumption. now apply Hr.
Qed.

Lemma fold_keeps_no_leak (h : ref -> State -> State) :
  (forall a s, no_listener_leak s -> current_or_settled s a ->
               no_listener_leak (h a s) /\
               forall r, current_or_settled s r -> current_or_settled (h a s) r) ->
  forall rs st,
    no_listener_leak st ->
    (forall r, In r rs -> current_or_settled st r) ->
    no_listener_leak (fold_left (fun s r => h r s) rs st).
Proof.
  intros Hstep. induction rs as [|a rs IH]; intros st Hl Hrs; [assumption|].
  cbn [fold_left]. destruct (Hstep a st Hl) as [Hl' Hc']; [apply Hrs; now left|].
  apply IH; [assumption|]. intros r Hin. apply Hc', Hrs. now right.
Qed.

Lemma no_leak_listed_current st r :
  no_listener_leak st ->
  In r (onHeadersReceived_listeners st) \/
  In r (onResponseStarted_listeners st) \/
  In r (onErrorOccurred_listeners st) ->
  current_or_settled st r.
Proof.
  intros Hl Hin info Ho. destruct (Hl r Hin) as (info' & Ho' & Hp).
  left. congruence.
Qed.

Lemma unregisterRedirectInfo_keeps_no_leak t st :
  tracking_wf st -> no_listener_leak st ->
  no_listener_leak (unregisterRedirectInfo t st) /\
  tabPendingRedirectInfos (unregisterRedirectInfo t st) !! t = None.
Proof.
  intros W Hl. split; [|apply unregisterRedirectInfo_clears].
  unfold unregisterRedirectInfo.
  destruct (tabPendingRedirectInfos st !! t) as [r0|] eqn:Hp; [|assumption].
  destruct (wf_entry st W t r0 Hp) as (i0 & Ho0 & Ht0).
  assert (current_or_settled st r0) as Hc.
  { intros info Ho. left. congruence. }
  destruct (unregister_keeps_no_leak r0 st Hl Hc) as [Hl1 _].
  intros r Hin. destruct (Hl1 r Hin) as (info & Ho & Hpr).
  exists info. split; [exact Ho|]. cbn.
  rewrite lookup_delete_ne; [exact Hpr|].
  intros E. rewrite <- E, (unregister_pending r0 i0 st Ho0), Ht0 in Hpr.
  now rewrite lookup_delete_eq in Hpr.
Qed.

Lemma registerRedirectInfo_keeps_no_leak t u st :
  tracking_wf st -> no_listener_leak st ->
  no_listener_leak (registerRedirectInfo t u st).
Proof.
  intros W Hl. unfold registerRedirectInfo.
  set (r := next_ref st).
  set (st1 := set_objects _ _ st).
  assert (tracking_wf st1 /\ no_listener_leak st1) as [W1 Hl1].
  { pose proof (tracking_wf_registerRedirectInfo t u st W) as _.
    assert (forall r0, is_Some (objects st !! r0) -> r0 <> r) as Hfresh.
    { intros r0 H. apply (wf_fresh st W) in H. subst r. lia. }
    split.
    - destruct W as [We Wl Wf Wh Ws Wr]. subst st1. split; cbn.
      + intros t0 r0 H. destruct (We t0 r0 H) as (i0 & Hi0 & Ht).
        exists i0. split; [|assumption].
        rewrite lookup_insert_ne; [assumption|]. intros E. apply (Hfresh r0); eauto.
      + exact Wl.
      + intros r0 H. apply lookup_insert_is_Some in H as [<-|[_ H]]; [lia|].
        apply Wf in H. lia.
      + intros r0 H. apply lookup_insert_is_Some'. right. now apply Wh.
      + intros r0 H. apply lookup_insert_is_Some'. right. now apply Ws.
      + intros r0 H. apply lookup_insert_is_Some'. right. now apply Wr.
    - intros r0 Hin. destruct (Hl r0 Hin) as (info & Ho & Hp).
      exists info. split; [|exact Hp]. subst st1. cbn.
      rewrite lookup_insert_ne; [assumption|]. intros E. apply (Hfresh r0); eauto. }
  destruct (unregisterRedirectInfo_keeps_no_leak t st1 W1 Hl1) as [Hl2 Hn2].
  pose proof (unregisterRedirectInfo_shrinks t st1) as Hs.
  set (st2 := unregisterRedirectInfo t st1) in *.
  assert (objects st2 !! r = Some (mkRedirectInfo t u JS.Null)) as Hr.
  { rewrite (shrinks_objects _ _ Hs). subst st1. cbn. apply lookup_insert_eq. }
  intros r0 Hin. cbn in Hin |- *. rewrite !In_addListener in Hin.
  destruct (Nat.eq_dec r0 r) as [->|Hne].
  - eexists. split; [exact Hr|]. cbn. apply lookup_insert_eq.
  - destruct (Hl2 r0) as (info & Ho & Hp); [intuition congruence|].
    exists info. split; [exact Ho|].
    rewrite lookup_insert_ne; [exact Hp|]. congruence.
Qed.

Section NoLeak.

Variable newURL : string -> option URL.

Lemma handle_keeps_no_leak e st :
  tracking_wf st -> no_listener_leak st -> delivered_in_order e = true ->
  no_listener_leak (handle newURL e st).
Proof.
  intros W Hl He. destruct e; cbn [handle]; try discriminate He.
  - unfold tabs_onCreated. destruct (truthy_id _); [|assumption].
    destruct (tab_active tab); exact Hl.
  - exact Hl.
  - unfold tabs_onRemoved. apply unregisterRedirectInfo_keeps_no_leak.
    + destruct W; now split.
    + exact Hl.
  - unfold tabs_query_then. clear He. revert st W Hl.
    induction tabs as [|tab tabs IH]; intros st W Hl; [assumption|].
    cbn [fold_left]. apply IH; [destruct W; now split | exact Hl].
  - unfold storage_onChanged.
    destruct new_domains_nohttps, new_enable_logging; exact Hl.
  - destruct (onBeforeRequest_cases newURL details currentTab st) as [(resp & E & _)|[_ E]];
      rewrite E; cbn [snd]; [assumption|].
    now apply registerRedirectInfo_keeps_no_leak.
  - destruct (decide_for_tab_cases newURL details currentTab st) as [(resp & E & _)|[_ E]];
      rewrite E; cbn [snd]; [assumption|].
    now apply registerRedirectInfo_keeps_no_leak.
  - unfold fire_onHeadersReceived.
    apply (fold_keeps_no_leak (fun r s => onHeadersReceived r details s)).
    + intros a s. apply onHeadersReceived_keeps_no_leak.
    + exact Hl.
    + intros r Hin. apply filter_In in Hin as [Hin _].
      apply no_leak_listed_current; auto.
  - unfold fire_onResponseStarted.
    apply (fold_keeps_no_leak unregister).
    + intros a s. apply unregister_keeps_no_leak.
    + exact Hl.
    + intros r Hin. apply filter_In in Hin as [Hin _].
      apply no_leak_listed_current; auto.
  - unfold fire_onErrorOccurred.
    apply (fold_keeps_no_leak unregister).
    + intros a s. apply unregister_keeps_no_leak.
    + exact Hl.
    + intros r Hin. apply filter_In in Hin as [Hin _].
      apply no_leak_listed_current; auto.
Qed.

Lemma run_reachable events : forall st,
  reachable newURL st -> reachable newURL (run newURL events st).
Proof.
  induction events as [|e events IH]; intros st Hr; [assumption|].
  cbn. apply IH. now apply reachable_step.
Qed.

(** As long as every event is delivered to the listeners that are added
    when it is fired, no listener is left behind: after any run of the
    background page, each listener belongs to the object that is pending for
    its tab. *)
Theorem in_order_run_leaves_no_listener events :
  forallb delivered_in_order events = true ->
  no_listener_leak (run newURL events initial_state).
Proof.
  assert (forall events st,
            reachable newURL st -> no_listener_leak st ->
            forallb delivered_in_order events = true ->
            no_listener_leak (run newURL events st)) as Hgen.
  { induction events0 as [|e events0 IH]; intros st Hr Hl Ho; [assumption|].
    cbn in Ho |- *. apply andb_true_iff in Ho as [He Ho].
    apply IH; [now apply reachable_step | | assumption].
    apply handle_keeps_no_leak; [now apply (reachable_tracking_wf newURL) | assumption..]. }
  intros Ho. apply Hgen; [apply reachable_initial | | assumption].
  intros r [H|[H|H]]; destruct H.
Qed.

(** A request for the host of the page that the tab shows is never
    redirected, be the page loaded over [http:] or over [https:]. *)
Theorem same_host_is_never_redirected details tab st cur req :
  newURL (tab_url tab) = Some cur ->
  newURL (url details) = Some req ->
  Str.startsWith (tab_url tab) "http" = true ->
  hostname req = hostname cur ->
  onBeforeRequest newURL details (Some tab) st = (Proceed, st).
Proof.
  intros Hc Hq Hs Hh.
  pose proof (onBeforeRequest_parsed_does_not_throw newURL details (Some tab) st req Hq)
    as Hthrow.
  assert (isDerivedURL newURL (tab_url tab) (url details) = Some true) as Hd.
  { rewrite (isDerivedURL_parsed newURL _ _ cur req Hc Hq Hs), Hh, String.eqb_refl.
    now rewrite orb_true_r. }
  destruct (onBeforeRequest newURL details (Some tab) st) as [resp st'] eqn:E.
  destruct resp as [|u|]; [| |now cbn in Hthrow].
  - destruct (onBeforeRequest_cases newURL details (Some tab) st) as [(resp & E' & _)|[_ E']];
      congruence.
  - destruct (onBeforeRequest_redirect_inv newURL _ _ _ _ _ E) as (_ & _ & _ & _ & Hct & _).
    destruct (Hct tab eq_refl) as [_ Hd']. congruence.
Qed.

End NoLeak.

(** [unregister] may be called again: the second call changes nothing. *)
Theorem unregister_twice r st :
  unregister r (unregister r st) = unregister r st.
Proof.
  assert (forall l, removeListener r (removeListener r l) = removeListener r l) as Hrem.
  { intros l. unfold removeListener. induction l as [|a l IH]; [reflexivity|].
    cbn. destruct (negb (Nat.eqb r a)) eqn:E; cbn; [rewrite E|]; now rewrite IH. }
  unfold unregister at 2.
  destruct (objects st !! r) as [info|] eqn:Ho.
  - unfold unregister.
    cbn [objects tabPendingRedirectInfos onHeadersReceived_listeners
         onResponseStarted_listeners onErrorOccurred_listeners
         set_tabPendingRedirectInfos set_listeners].
    rewrite Ho. unfold set_tabPendingRedirectInfos, set_listeners.
    cbn [objects tabPendingRedirectInfos onHeadersReceived_listeners
         onResponseStarted_listeners onErrorOccurred_listeners
         domains_nohttps enable_logging tabCreationTimes tabActivatedTimes next_ref].
    now rewrite !Hrem, delete_delete_eq.
  - unfold unregister. now rewrite Ho.
Qed.

Lemma in_order_run_leaves_no_listener_witness :
  no_listener_leak
    (run UrlModel.parse_url
       [TabCreated (Scenario.blank_tab 1) Scenario.T0;
        BeforeRequest (Scenario.typed 1 "http://example.com/" "100" (Scenario.T0 + 5000))
                      (Some (Scenario.blank_tab 1));
        HeadersReceived
          (Scenario.response 1 "https://example.com/" "100" 302 (Scenario.T0 + 5100));
        TabRemoved 1]
       initial_state).
Proof.
  apply (in_order_run_leaves_no_listener UrlModel.parse_url). reflexivity.
Defined.

Lemma same_host_is_never_redirected_witness :
  onBeforeRequest UrlModel.parse_url
    (Scenario.typed 1 "http://example.com/login" "100" (Scenario.T0 + 5000))
    (Some (Scenario.tab_showing 1 "https://example.com/")) Scenario.fresh_tab_state
  = (Proceed, Scenario.fresh_tab_state).
Proof.
  apply (same_host_is_never_redirected UrlModel.parse_url
           (Scenario.typed 1 "http://example.com/login" "100" (Scenario.T0 + 5000))
           (Scenario.tab_showing 1 "https://example.com/") Scenario.fresh_tab_state
           (mkURL "https:" "example.com" "/" EmptyString EmptyString)
           (mkURL "http:" "example.com" "/login" EmptyString EmptyString));
    reflexivity.
Defined.
